(** * System resource monitor: ingestion, rolling history, recording, statistics

    A shallow embedding of [static/js/main.js].  The script's global
    variables, the part of the page it writes and the part of the browser
    it relies on (clock, timers, alerts, saved files, the WebSocket object)
    form one explicit [State]; every function of the script is a
    computation in a small state-and-exception monad over it.

    Numbers.  A JavaScript number is modelled as an exact rational, with
    the three special values the script can produce ([Infinity],
    [-Infinity], [NaN]); the rounding of IEEE-754 doubles is outside the
    model.  A number read from a JSON message is always finite. *)

From Stdlib Require Import String List ZArith QArith Qminmax Bool Arith Lia.
Import ListNotations.

Close Scope Q_scope.
Close Scope Z_scope.
Open Scope string_scope.
Open Scope nat_scope.
Open Scope list_scope.

(* ------------------------------------------------------------------ *)
(** ** Numbers                                                         *)
(* ------------------------------------------------------------------ *)

Inductive number : Type :=
| Num (q : Q)
| Infinity
| NegInfinity
| NaN.

(** Equality of numbers as values ([1/2] and [2/4] are the same number). *)
Definition number_eq (a b : number) : Prop :=
  match a, b with
  | Num x, Num y => (x == y)%Q
  | Infinity, Infinity => True
  | NegInfinity, NegInfinity => True
  | NaN, NaN => True
  | _, _ => False
  end.

(** [a / b] for finite operands: a zero divisor gives [NaN] or an infinity. *)
Definition js_div (a b : Q) : number :=
  if Qeq_bool b 0 then
    if Qeq_bool a 0 then NaN
    else if Qle_bool 0 a then Infinity else NegInfinity
  else Num (a / b)%Q.

Definition num_min (a b : number) : number :=
  match a, b with
  | NaN, _ | _, NaN => NaN
  | NegInfinity, _ | _, NegInfinity => NegInfinity
  | Infinity, y => y
  | x, Infinity => x
  | Num x, Num y => if Qle_bool x y then Num x else Num y
  end.

Definition num_max (a b : number) : number :=
  match a, b with
  | NaN, _ | _, NaN => NaN
  | Infinity, _ | _, Infinity => Infinity
  | NegInfinity, y => y
  | x, NegInfinity => x
  | Num x, Num y => if Qle_bool x y then Num y else Num x
  end.

(** [Math.min(...arr)] and [Math.max(...arr)]: with no argument they are
    [Infinity] and [-Infinity]. *)
Definition Math_min (arr : list Q) : number :=
  fold_left (fun acc x => num_min acc (Num x)) arr Infinity.

Definition Math_max (arr : list Q) : number :=
  fold_left (fun acc x => num_max acc (Num x)) arr NegInfinity.

(** [x || 0] where [x] is a number or [undefined]: the falsy values,
    [undefined] and zero, give [0]. *)
Definition or0 (x : option Q) : Q :=
  match x with
  | Some v => if Qeq_bool v 0 then 0%Q else v
  | None => 0%Q
  end.

(** Optional chaining [o?.f], for a field that holds a value and for a
    field that may itself be absent. *)
Definition chain {A B : Type} (o : option A) (f : A -> B) : option B :=
  option_map f o.

Definition chain_opt {A B : Type} (o : option A) (f : A -> option B) : option B :=
  match o with
  | Some a => f a
  | None => None
  end.

(** Array methods: [push] appends, [shift] removes the first element. *)
Definition push {A : Type} (arr : list A) (x : A) : list A := arr ++ [x].
Definition shift {A : Type} (arr : list A) : list A := tl arr.

(* ------------------------------------------------------------------ *)
(** ** Snapshots                                                       *)
(* ------------------------------------------------------------------ *)

(** The fields of a message that the history and the statistics read.  A
    section that the display code dereferences unguarded ([cpu.percent],
    [memory.virtual.percent]) is present whenever its parent is, or the
    handler would have stopped before recording anything; the two speed
    fields are read through [||] only and may each be absent. *)

Module Cpu.
Record t : Type := { percent : Q }.
End Cpu.

Module Virtual.
Record t : Type := { percent : Q }.
End Virtual.

Module Memory.
Record t : Type := { virtual : option Virtual.t }.
End Memory.

Module Speed.
Record t : Type :=
  { upload_bytes_per_sec : option Q;
    download_bytes_per_sec : option Q }.
End Speed.

Module Network.
Record t : Type := { speed : option Speed.t }.
End Network.

Module Snapshot.
Record t : Type :=
  { cpu : option Cpu.t;
    memory : option Memory.t;
    network : option Network.t }.
End Snapshot.

(** The four scalar series.  [field] is the raw optional field of a
    snapshot, as the script reaches it by optional chaining. *)
Inductive metric : Type := CpuPercent | MemoryPercent | NetUpload | NetDownload.

Definition field (m : metric) (d : Snapshot.t) : option Q :=
  match m with
  | CpuPercent => chain (Snapshot.cpu d) Cpu.percent
  | MemoryPercent =>
      chain (chain_opt (Snapshot.memory d) Memory.virtual) Virtual.percent
  | NetUpload =>
      chain_opt (chain_opt (Snapshot.network d) Network.speed)
        Speed.upload_bytes_per_sec
  | NetDownload =>
      chain_opt (chain_opt (Snapshot.network d) Network.speed)
        Speed.download_bytes_per_sec
  end.

(** The value the script derives from a snapshot for each series: lines
    287, 295, 303, 304 in [updateCharts] and, with the same expressions,
    491-494 in [calculateStats]. *)
Definition scalar (m : metric) (d : Snapshot.t) : Q :=
  match m with
  | CpuPercent => or0 (field CpuPercent d)
  | MemoryPercent => or0 (field MemoryPercent d)
  | NetUpload => (or0 (field NetUpload d) / 1024)%Q
  | NetDownload => (or0 (field NetDownload d) / 1024)%Q
  end.

(* ------------------------------------------------------------------ *)
(** ** State                                                           *)
(* ------------------------------------------------------------------ *)

Definition MAX_HISTORY : nat := 60.
Definition RECORDING_DURATION : Z := (5 * 60 * 1000)%Z.

(** [historyData = { cpu, memory, network: { upload, download } }]. *)
Module NetHistory.
Record t : Type := { upload : list Q; download : list Q }.
End NetHistory.

Module History.
Record t : Type :=
  { cpu : list Q;
    memory : list Q;
    network : NetHistory.t }.
End History.

(** The browser's WebSocket object, as far as the script depends on it:
    which socket it is (counted from 0) and its [readyState]. *)
Inductive ReadyState : Type := CONNECTING | OPEN | CLOSING | CLOSED.

Record WebSocket : Type := { serial : nat; readyState : ReadyState }.

(** The functions handed to [setTimeout] and [setInterval]. *)
Inductive callback : Type :=
| updateTime_cb
| updateRecordingTime_cb
| connectWebSocket_cb
| autoStop_cb.          (* the arrow function of [startRecording], l.347 *)

Record Timeout : Type := { timeout_id : nat; due : Z; action : callback }.

(** The object returned by [calculateStats]. *)
Module Series.
Record t : Type := { avg : number; min : number; max : number }.
End Series.

Module NetStats.
Record t : Type := { uploadAvg : number; downloadAvg : number }.
End NetStats.

Module Stats.
Record t : Type :=
  { cpu : Series.t;
    memory : Series.t;
    network : NetStats.t }.
End Stats.

(** What [downloadPDF] saves, reduced to the data it takes from the
    recording: the "Recording Duration" line and the statistics. *)
Record Report : Type := { duration_seconds : nat; statistics : Stats.t }.

(** The elements of the page the script writes. *)
Inductive ButtonFace : Type :=
| StartFace    (* "5분 녹화 시작", class btn-primary *)
| StopFace.    (* "녹화 중지", class btn-danger *)

Record Dom : Type :=
  { status_dot : string;              (* className of .status-dot *)
    status_text : string;             (* textContent of .status-text *)
    recordingDot_active : bool;
    recordingText : string;
    downloadPdfBtn_disabled : bool;
    startRecordingBtn : ButtonFace }.

Record State : Type :=
  { (* global variables of the script *)
    ws : option WebSocket;
    historyData : History.t;
    isRecording : bool;
    recordingData : list Snapshot.t;
    recordingStartTime : option Z;
    recordingTimer : option nat;
    (* the page *)
    dom : Dom;
    (* the browser *)
    clock : Z;                        (* Date.now(), in ms *)
    next_timer_id : nat;
    timeouts : list Timeout;          (* pending setTimeout calls *)
    intervals : list (nat * callback);
    sockets_created : nat;
    alerts : list string;
    saved : list Report }.

Definition with_ws v st :=
  {| ws := v; historyData := historyData st; isRecording := isRecording st;
     recordingData := recordingData st;
     recordingStartTime := recordingStartTime st;
     recordingTimer := recordingTimer st; dom := dom st; clock := clock st;
     next_timer_id := next_timer_id st; timeouts := timeouts st;
     intervals := intervals st; sockets_created := sockets_created st;
     alerts := alerts st; saved := saved st |}.

Definition with_historyData v st :=
  {| ws := ws st; historyData := v; isRecording := isRecording st;
     recordingData := recordingData st;
     recordingStartTime := recordingStartTime st;
     recordingTimer := recordingTimer st; dom := dom st; clock := clock st;
     next_timer_id := next_timer_id st; timeouts := timeouts st;
     intervals := intervals st; sockets_created := sockets_created st;
     alerts := alerts st; saved := saved st |}.

Definition with_isRecording v st :=
  {| ws := ws st; historyData := historyData st; isRecording := v;
     recordingData := recordingData st;
     recordingStartTime := recordingStartTime st;
     recordingTimer := recordingTimer st; dom := dom st; clock := clock st;
     next_timer_id := next_timer_id st; timeouts := timeouts st;
     intervals := intervals st; sockets_created := sockets_created st;
     alerts := alerts st; saved := saved st |}.

Definition with_recordingData v st :=
  {| ws := ws st; historyData := historyData st; isRecording := isRecording st;
     recordingData := v;
     recordingStartTime := recordingStartTime st;
     recordingTimer := recordingTimer st; dom := dom st; clock := clock st;
     next_timer_id := next_timer_id st; timeouts := timeouts st;
     intervals := intervals st; sockets_created := sockets_created st;
     alerts := alerts st; saved := saved st |}.

Definition with_recordingStartTime v st :=
  {| ws := ws st; historyData := historyData st; isRecording := isRecording st;
     recordingData := recordingData st;
     recordingStartTime := v;
     recordingTimer := recordingTimer st; dom := dom st; clock := clock st;
     next_timer_id := next_timer_id st; timeouts := timeouts st;
     intervals := intervals st; sockets_created := sockets_created st;
     alerts := alerts st; saved := saved st |}.

Definition with_recordingTimer v st :=
  {| ws := ws st; historyData := historyData st; isRecording := isRecording st;
     recordingData := recordingData st;
     recordingStartTime := recordingStartTime st;
     recordingTimer := v; dom := dom st; clock := clock st;
     next_timer_id := next_timer_id st; timeouts := timeouts st;
     intervals := intervals st; sockets_created := sockets_created st;
     alerts := alerts st; saved := saved st |}.

Definition with_dom v st :=
  {| ws := ws st; historyData := historyData st; isRecording := isRecording st;
     recordingData := recordingData st;
     recordingStartTime := recordingStartTime st;
     recordingTimer := recordingTimer st; dom := v; clock := clock st;
     next_timer_id := next_timer_id st; timeouts := timeouts st;
     intervals := intervals st; sockets_created := sockets_created st;
     alerts := alerts st; saved := saved st |}.

Definition with_clock v st :=
  {| ws := ws st; historyData := historyData st; isRecording := isRecording st;
     recordingData := recordingData st;
     recordingStartTime := recordingStartTime st;
     recordingTimer := recordingTimer st; dom := dom st; clock := v;
     next_timer_id := next_timer_id st; timeouts := timeouts st;
     intervals := intervals st; sockets_created := sockets_created st;
     alerts := alerts st; saved := saved st |}.

Definition with_next_timer_id v st :=
  {| ws := ws st; historyData := historyData st; isRecording := isRecording st;
     recordingData := recordingData st;
     recordingStartTime := recordingStartTime st;
     recordingTimer := recordingTimer st; dom := dom st; clock := clock st;
     next_timer_id := v; timeouts := timeouts st;
     intervals := intervals st; sockets_created := sockets_created st;
     alerts := alerts st; saved := saved st |}.

Definition with_timeouts v st :=
  {| ws := ws st; historyData := historyData st; isRecording := isRecording st;
     recordingData := recordingData st;
     recordingStartTime := recordingStartTime st;
     recordingTimer := recordingTimer st; dom := dom st; clock := clock st;
     next_timer_id := next_timer_id st; timeouts := v;
     intervals := intervals st; sockets_created := sockets_created st;
     alerts := alerts st; saved := saved st |}.

Definition with_intervals v st :=
  {| ws := ws st; historyData := historyData st; isRecording := isRecording st;
     recordingData := recordingData st;
     recordingStartTime := recordingStartTime st;
     recordingTimer := recordingTimer st; dom := dom st; clock := clock st;
     next_timer_id := next_timer_id st; timeouts := timeouts st;
     intervals := v; sockets_created := sockets_created st;
     alerts := alerts st; saved := saved st |}.

Definition with_sockets_created v st :=
  {| ws := ws st; historyData := historyData st; isRecording := isRecording st;
     recordingData := recordingData st;
     recordingStartTime := recordingStartTime st;
     recordingTimer := recordingTimer st; dom := dom st; clock := clock st;
     next_timer_id := next_timer_id st; timeouts := timeouts st;
     intervals := intervals st; sockets_created := v;
     alerts := alerts st; saved := saved st |}.

Definition with_alerts v st :=
  {| ws := ws st; historyData := historyData st; isRecording := isRecording st;
     recordingData := recordingData st;
     recordingStartTime := recordingStartTime st;
     recordingTimer := recordingTimer st; dom := dom st; clock := clock st;
     next_timer_id := next_timer_id st; timeouts := timeouts st;
     intervals := intervals st; sockets_created := sockets_created st;
     alerts := v; saved := saved st |}.

Definition with_saved v st :=
  {| ws := ws st; historyData := historyData st; isRecording := isRecording st;
     recordingData := recordingData st;
     recordingStartTime := recordingStartTime st;
     recordingTimer := recordingTimer st; dom := dom st; clock := clock st;
     next_timer_id := next_timer_id st; timeouts := timeouts st;
     intervals := intervals st; sockets_created := sockets_created st;
     alerts := alerts st; saved := v |}.

Definition with_status (dot text : string) (d : Dom) : Dom :=
  {| status_dot := dot; status_text := text;
     recordingDot_active := recordingDot_active d;
     recordingText := recordingText d;
     downloadPdfBtn_disabled := downloadPdfBtn_disabled d;
     startRecordingBtn := startRecordingBtn d |}.

Definition with_recordingDot_active (v : bool) (d : Dom) : Dom :=
  {| status_dot := status_dot d; status_text := status_text d;
     recordingDot_active := v;
     recordingText := recordingText d;
     downloadPdfBtn_disabled := downloadPdfBtn_disabled d;
     startRecordingBtn := startRecordingBtn d |}.

Definition with_recordingText (v : string) (d : Dom) : Dom :=
  {| status_dot := status_dot d; status_text := status_text d;
     recordingDot_active := recordingDot_active d;
     recordingText := v;
     downloadPdfBtn_disabled := downloadPdfBtn_disabled d;
     startRecordingBtn := startRecordingBtn d |}.

Definition with_downloadPdfBtn_disabled (v : bool) (d : Dom) : Dom :=
  {| status_dot := status_dot d; status_text := status_text d;
     recordingDot_active := recordingDot_active d;
     recordingText := recordingText d;
     downloadPdfBtn_disabled := v;
     startRecordingBtn := startRecordingBtn d |}.

Definition with_startRecordingBtn (v : ButtonFace) (d : Dom) : Dom :=
  {| status_dot := status_dot d; status_text := status_text d;
     recordingDot_active := recordingDot_active d;
     recordingText := recordingText d;
     downloadPdfBtn_disabled := downloadPdfBtn_disabled d;
     startRecordingBtn := v |}.

(* ------------------------------------------------------------------ *)
(** ** The monad of script code                                        *)
(* ------------------------------------------------------------------ *)

(** A call either returns a value or throws; in both cases the
    assignments made so far stay. *)
Inductive exn : Type := SyntaxError.

Inductive completion (A : Type) : Type :=
| Normal (a : A) (st : State)
| Abrupt (e : exn) (st : State).

Arguments Normal {A} a st.
Arguments Abrupt {A} e st.

Definition JS (A : Type) : Type := State -> completion A.

Definition ret {A : Type} (a : A) : JS A := fun st => Normal a st.

Definition bind {A B : Type} (m : JS A) (k : A -> JS B) : JS B :=
  fun st =>
    match m st with
    | Normal a st' => k a st'
    | Abrupt e st' => Abrupt e st'
    end.

Definition throw {A : Type} (e : exn) : JS A := fun st => Abrupt e st.

Definition read {A : Type} (f : State -> A) : JS A := fun st => Normal (f st) st.

Definition write (f : State -> State) : JS unit := fun st => Normal tt (f st).

Definition write_dom (f : Dom -> Dom) : JS unit :=
  write (fun st => with_dom (f (dom st)) st).

Declare Scope js_scope.
Delimit Scope js_scope with js.
Bind Scope js_scope with JS.

Notation "x <- m ;; k" := (bind m (fun x => k))
  (at level 61, m at next level, right associativity) : js_scope.
Notation "m ;; k" := (bind m (fun _ => k))
  (at level 61, right associativity) : js_scope.

Open Scope js_scope.

(** The state a handler leaves behind, however it ended: the event loop
    reports an uncaught exception and goes on with the next event. *)
Definition state_after {A : Type} (c : completion A) : State :=
  match c with
  | Normal _ st => st
  | Abrupt _ st => st
  end.

(** *** Browser functions *)

Definition Date_now : JS Z := read clock.

Definition setTimeout (cb : callback) (delay : Z) : JS nat :=
  id <- read next_timer_id ;;
  now <- read clock ;;
  write (fun st =>
    with_timeouts
      (push (timeouts st)
         {| timeout_id := id; due := (now + delay)%Z; action := cb |})
      (with_next_timer_id (S id) st)) ;;
  ret id.

Definition setInterval (cb : callback) (period : Z) : JS nat :=
  id <- read next_timer_id ;;
  write (fun st =>
    with_intervals (push (intervals st) (id, cb))
      (with_next_timer_id (S id) st)) ;;
  ret id.

(** Timeouts and intervals share one pool of ids, and [clearInterval]
    cancels whichever timer has the id; [null] and stale ids do nothing. *)
Definition clearInterval (handle : option nat) : JS unit :=
  match handle with
  | None => ret tt
  | Some id =>
      write (fun st =>
        with_intervals
          (filter (fun p => negb (Nat.eqb (fst p) id)) (intervals st))
          (with_timeouts
             (filter (fun t => negb (Nat.eqb (timeout_id t) id)) (timeouts st))
             st))
  end.

Definition alert (msg : string) : JS unit :=
  write (fun st => with_alerts (push (alerts st) msg) st).

(** [pdf.save(...)]. *)
Definition save (r : Report) : JS unit :=
  write (fun st => with_saved (push (saved st) r) st).

(** A message is identified by what [JSON.parse] makes of its text. *)
Inductive payload : Type :=
| Json (data : Snapshot.t)
| NotJson.

Definition JSON_parse (event_data : payload) : JS Snapshot.t :=
  match event_data with
  | Json data => ret data
  | NotJson => throw SyntaxError
  end.

(** [new WebSocket(url)]: a fresh socket, connecting. *)
Definition new_WebSocket : JS WebSocket :=
  n <- read sockets_created ;;
  write (with_sockets_created (S n)) ;;
  ret {| serial := n; readyState := CONNECTING |}.

(* ------------------------------------------------------------------ *)
(** ** The script                                                      *)
(* ------------------------------------------------------------------ *)

Definition updateConnectionStatus (status : string) : JS unit :=
  write_dom
    (with_status ("status-dot " ++ status)%string
       (if String.eqb status "connected" then "연결됨" else "연결 끊김")).

(** [connectWebSocket], l.40: the four handlers it installs on the new
    socket are [ws_onopen], [ws_onclose], [ws_onerror] and [ws_onmessage]
    below. *)
Definition connectWebSocket : JS unit :=
  socket <- new_WebSocket ;;
  write (with_ws (Some socket)).

Definition ws_onopen : JS unit :=
  updateConnectionStatus "connected".

Definition ws_onclose : JS unit :=
  updateConnectionStatus "disconnected" ;;
  _ <- setTimeout connectWebSocket_cb 3000 ;;
  ret tt.

Definition ws_onerror : JS unit :=
  updateConnectionStatus "disconnected".

(** The seven display functions called first by [updateDashboard]
    ([updateSystemInfo], [updateCPU], [updateMemory], [updateDisk],
    [updateNetwork], [updateGPU], [updateProcesses]) write text and gauges
    of the page only, and return normally on a snapshot of the shape
    above. *)
Definition updatePanels (data : Snapshot.t) : JS unit := ret tt.

Definition write_history (f : History.t -> History.t) : JS unit :=
  write (fun st => with_historyData (f (historyData st)) st).

Definition set_cpu (v : list Q) (h : History.t) : History.t :=
  {| History.cpu := v; History.memory := History.memory h;
     History.network := History.network h |}.

Definition set_memory (v : list Q) (h : History.t) : History.t :=
  {| History.cpu := History.cpu h; History.memory := v;
     History.network := History.network h |}.

Definition set_upload (v : list Q) (h : History.t) : History.t :=
  {| History.cpu := History.cpu h; History.memory := History.memory h;
     History.network :=
       {| NetHistory.upload := v;
          NetHistory.download := NetHistory.download (History.network h) |} |}.

Definition set_download (v : list Q) (h : History.t) : History.t :=
  {| History.cpu := History.cpu h; History.memory := History.memory h;
     History.network :=
       {| NetHistory.upload := NetHistory.upload (History.network h);
          NetHistory.download := v |} |}.

Definition cpu_history (st : State) : list Q := History.cpu (historyData st).
Definition memory_history (st : State) : list Q := History.memory (historyData st).
Definition upload_history (st : State) : list Q :=
  NetHistory.upload (History.network (historyData st)).
Definition download_history (st : State) : list Q :=
  NetHistory.download (History.network (historyData st)).

(** [updateCharts], l.283.  The chart objects alias the history arrays
    and are redrawn; they hold no data of their own. *)
Definition updateCharts (data : Snapshot.t) : JS unit :=
  (* CPU *)
  write_history (fun h =>
    set_cpu (push (History.cpu h) (scalar CpuPercent data)) h) ;;
  n <- read (fun st => length (cpu_history st)) ;;
  (if Nat.ltb MAX_HISTORY n
   then write_history (fun h => set_cpu (shift (History.cpu h)) h)
   else ret tt) ;;
  (* memory *)
  write_history (fun h =>
    set_memory (push (History.memory h) (scalar MemoryPercent data)) h) ;;
  n <- read (fun st => length (memory_history st)) ;;
  (if Nat.ltb MAX_HISTORY n
   then write_history (fun h => set_memory (shift (History.memory h)) h)
   else ret tt) ;;
  (* network *)
  let up := scalar NetUpload data in
  let down := scalar NetDownload data in
  write_history (fun h =>
    set_upload (push (NetHistory.upload (History.network h)) up) h) ;;
  write_history (fun h =>
    set_download (push (NetHistory.download (History.network h)) down) h) ;;
  n <- read (fun st => length (upload_history st)) ;;
  if Nat.ltb MAX_HISTORY n
  then
    write_history (fun h =>
      set_upload (shift (NetHistory.upload (History.network h))) h) ;;
    write_history (fun h =>
      set_download (shift (NetHistory.download (History.network h))) h)
  else ret tt.

Definition updateDashboard (data : Snapshot.t) : JS unit :=
  updatePanels data ;;
  updateCharts data.

(** [ws.onmessage], l.57. *)
Definition ws_onmessage (event_data : payload) : JS unit :=
  data <- JSON_parse event_data ;;
  updateDashboard data ;;
  recording <- read isRecording ;;
  if recording
  then write (fun st => with_recordingData (push (recordingData st) data) st)
  else ret tt.

(** [stopRecording], l.357. *)
Definition stopRecording : JS unit :=
  write (with_isRecording false) ;;
  timer <- read recordingTimer ;;
  clearInterval timer ;;
  write_dom (with_recordingDot_active false) ;;
  write_dom (with_recordingText "녹화 완료") ;;
  write_dom (with_downloadPdfBtn_disabled false).

(** The function [startRecording] hands to [setTimeout], l.347. *)
Definition autoStop : JS unit :=
  recording <- read isRecording ;;
  if recording
  then stopRecording ;; write_dom (with_startRecordingBtn StartFace)
  else ret tt.

(** [startRecording], l.335. *)
Definition startRecording : JS unit :=
  write (with_isRecording true) ;;
  write (with_recordingData []) ;;
  now <- Date_now ;;
  write (with_recordingStartTime (Some now)) ;;
  write_dom (with_recordingDot_active true) ;;
  write_dom (with_recordingText "녹화 중...") ;;
  write_dom (with_downloadPdfBtn_disabled true) ;;
  timer <- setInterval updateRecordingTime_cb 1000 ;;
  write (with_recordingTimer (Some timer)) ;;
  _ <- setTimeout autoStop_cb RECORDING_DURATION ;;
  ret tt.

(** [toggleRecording], l.319. *)
Definition toggleRecording : JS unit :=
  recording <- read isRecording ;;
  if negb recording
  then startRecording ;; write_dom (with_startRecordingBtn StopFace)
  else stopRecording ;; write_dom (with_startRecordingBtn StartFace).

(** [calculateStats], l.490. *)
Definition avg (arr : list Q) : number :=
  js_div (fold_left (fun a b => (a + b)%Q) arr 0%Q)
         (inject_Z (Z.of_nat (length arr))).

Definition calculateStats : JS Stats.t :=
  recordingData <- read recordingData ;;
  let cpuValues := map (scalar CpuPercent) recordingData in
  let memValues := map (scalar MemoryPercent) recordingData in
  let upValues := map (scalar NetUpload) recordingData in
  let downValues := map (scalar NetDownload) recordingData in
  ret {| Stats.cpu :=
           {| Series.avg := avg cpuValues;
              Series.min := Math_min cpuValues;
              Series.max := Math_max cpuValues |};
         Stats.memory :=
           {| Series.avg := avg memValues;
              Series.min := Math_min memValues;
              Series.max := Math_max memValues |};
         Stats.network :=
           {| NetStats.uploadAvg := avg upValues;
              NetStats.downloadAvg := avg downValues |} |}.

(** [downloadPDF], l.380.  The statistics are computed before the first
    [await]; the capture of the page that follows adds a picture, or
    fails and is logged, and the file is saved either way. *)
Definition downloadPDF : JS unit :=
  n <- read (fun st => length (recordingData st)) ;;
  if Nat.eqb n 0
  then alert "녹화된 데이터가 없습니다."
  else
    stats <- calculateStats ;;
    save {| duration_seconds := n; statistics := stats |}.

(** The page just loaded, at time [t0], with the elements as the HTML
    declares them; then the [DOMContentLoaded] listener, l.21. *)
Definition page_load (page : Dom) (t0 : Z) : State :=
  {| ws := None;
     historyData :=
       {| History.cpu := []; History.memory := [];
          History.network :=
            {| NetHistory.upload := []; NetHistory.download := [] |} |};
     isRecording := false;
     recordingData := [];
     recordingStartTime := None;
     recordingTimer := None;
     dom := page;
     clock := t0;
     next_timer_id := 1;
     timeouts := [];
     intervals := [];
     sockets_created := 0;
     alerts := [];
     saved := [] |}.

Definition DOMContentLoaded : JS unit :=
  connectWebSocket ;;
  _ <- setInterval updateTime_cb 1000 ;;
  ret tt.

Definition init (page : Dom) (t0 : Z) : State :=
  state_after (DOMContentLoaded (page_load page t0)).

(* ------------------------------------------------------------------ *)
(** ** The event loop                                                  *)
(* ------------------------------------------------------------------ *)

(** [updateTime] and [updateRecordingTime] write the two clocks shown on
    the page and nothing else. *)
Definition run_callback (cb : callback) : JS unit :=
  match cb with
  | updateTime_cb => ret tt
  | updateRecordingTime_cb => ret tt
  | connectWebSocket_cb => connectWebSocket
  | autoStop_cb => autoStop
  end.

(** The pending timeout that fires first: the least [due], and among
    equals the one registered first. *)
Fixpoint earliest (ts : list Timeout) : option Timeout :=
  match ts with
  | [] => None
  | t :: rest =>
      match earliest rest with
      | None => Some t
      | Some t' => if (due t <=? due t')%Z then Some t else Some t'
      end
  end.

Definition due_by (until : Z) (ts : list Timeout) : list Timeout :=
  filter (fun t => (due t <=? until)%Z) ts.

Definition without (id : nat) (ts : list Timeout) : list Timeout :=
  filter (fun t => negb (Nat.eqb (timeout_id t) id)) ts.

(** Fire, in order, the timeouts due by [until]. *)
Fixpoint run_timers (fuel : nat) (until : Z) (st : State) : State :=
  match fuel with
  | O => st
  | S fuel' =>
      match earliest (due_by until (timeouts st)) with
      | None => st
      | Some t =>
          let st1 :=
            with_timeouts (without (timeout_id t) (timeouts st))
              (with_clock (Z.max (clock st) (due t)) st) in
          run_timers fuel' until (state_after (run_callback (action t) st1))
      end
  end.

(** [ms] milliseconds pass with no other event.  No callback of this
    script registers a timeout, so the number of pending timeouts bounds
    the number of firings.  The intervals are not run: their two
    callbacks only rewrite a clock shown on the page. *)
Definition elapse (ms : Z) (st : State) : State :=
  if (ms <? 0)%Z then st
  else
    let until := (clock st + ms)%Z in
    with_clock until (run_timers (length (timeouts st)) until st).

Inductive event : Type :=
| Click_startRecordingBtn
| Click_downloadPdfBtn
| Ws_open
| Ws_close
| Ws_error
| Ws_message (event_data : payload)
| Elapse (ms : Z).

Definition set_readyState (r : ReadyState) : JS unit :=
  write (fun st =>
    with_ws
      (option_map (fun w => {| serial := serial w; readyState := r |}) (ws st))
      st).

(** The listener an event reaches.  A disabled button receives no click;
    the browser moves the socket to OPEN or CLOSED before it calls
    [onopen] or [onclose]. *)
Definition dispatch (e : event) : JS unit :=
  match e with
  | Click_startRecordingBtn => toggleRecording
  | Click_downloadPdfBtn =>
      disabled <- read (fun st => downloadPdfBtn_disabled (dom st)) ;;
      if disabled then ret tt else downloadPDF
  | Ws_open => set_readyState OPEN ;; ws_onopen
  | Ws_close => set_readyState CLOSED ;; ws_onclose
  | Ws_error => ws_onerror
  | Ws_message event_data => ws_onmessage event_data
  | Elapse _ => ret tt
  end.

Definition step (st : State) (e : event) : State :=
  match e with
  | Elapse ms => elapse ms st
  | _ => state_after (dispatch e st)
  end.

Definition run (st : State) (evs : list event) : State :=
  fold_left step evs st.

(** The snapshots a sequence of events delivers, in arrival order. *)
Definition accepted (evs : list event) : list Snapshot.t :=
  flat_map (fun e =>
    match e with
    | Ws_message (Json data) => [data]
    | _ => []
    end) evs.

(** The last [n] elements of a list. *)
Definition lastn {A : Type} (n : nat) (l : list A) : list A :=
  skipn (length l - n) l.

(* ------------------------------------------------------------------ *)
(** ** Notions used to state the properties                            *)
(* ------------------------------------------------------------------ *)

(** *** Rolling history *)

(** One tick of one series: append, then drop the oldest entry when the
    length [n] that the script tests exceeds [MAX_HISTORY]. *)
Definition tick (n : nat) (l : list Q) (x : Q) : list Q :=
  if Nat.ltb MAX_HISTORY n then shift (push l x) else push l x.

(** What [updateCharts] does to [historyData], in one expression: the
    download series is cut on the length of the upload series. *)
Definition chart_tick (data : Snapshot.t) (h : History.t) : History.t :=
  let up := NetHistory.upload (History.network h) in
  let down := NetHistory.download (History.network h) in
  let cpu' := push (History.cpu h) (scalar CpuPercent data) in
  let memory' := push (History.memory h) (scalar MemoryPercent data) in
  let up' := push up (scalar NetUpload data) in
  {| History.cpu := tick (length cpu') (History.cpu h) (scalar CpuPercent data);
     History.memory :=
       tick (length memory') (History.memory h) (scalar MemoryPercent data);
     History.network :=
       {| NetHistory.upload := tick (length up') up (scalar NetUpload data);
          NetHistory.download :=
            tick (length up') down (scalar NetDownload data) |} |}.

(** The four windows over a sequence of snapshots. *)
Definition window (m : metric) (snaps : list Snapshot.t) : list Q :=
  lastn MAX_HISTORY (map (scalar m) snaps).

Definition windows (snaps : list Snapshot.t) : History.t :=
  {| History.cpu := window CpuPercent snaps;
     History.memory := window MemoryPercent snaps;
     History.network :=
       {| NetHistory.upload := window NetUpload snaps;
          NetHistory.download := window NetDownload snaps |} |}.

Definition history_of (m : metric) (st : State) : list Q :=
  match m with
  | CpuPercent => cpu_history st
  | MemoryPercent => memory_history st
  | NetUpload => upload_history st
  | NetDownload => download_history st
  end.

(** *** Concrete inputs used in the examples below *)

(** A page with the elements the script looks up; it reads none of their
    initial contents. *)
Definition some_page : Dom :=
  {| status_dot := "status-dot";
     status_text := "";
     recordingDot_active := false;
     recordingText := "";
     downloadPdfBtn_disabled := false;
     startRecordingBtn := StartFace |}.

(** A message with no section at all, and one with a CPU section only. *)
Definition bare : Snapshot.t :=
  {| Snapshot.cpu := None; Snapshot.memory := None; Snapshot.network := None |}.

Definition cpu_only (p : Q) : Snapshot.t :=
  {| Snapshot.cpu := Some {| Cpu.percent := p |};
     Snapshot.memory := None;
     Snapshot.network := None |}.

(** Sixty-one messages, the i-th reporting i percent. *)
Definition sixty_one : list event :=
  map (fun i => Ws_message (Json (cpu_only (inject_Z (Z.of_nat i))))) (seq 0 61).

(** *** A missing section *)

(** The series whose length [updateCharts] tests before it drops the
    oldest entry of series [m]: the series itself, except that the
    download series is cut on the length of the upload series. *)
Definition tested_series (m : metric) : metric :=
  match m with
  | NetDownload => NetUpload
  | CpuPercent | MemoryPercent | NetUpload => m
  end.

(** C3 as it is worded, for one metric, one snapshot and one state: when
    the field is missing, the history of the metric is left as it was. *)
Definition skipped_when_missing
  (m : metric) (data : Snapshot.t) (st : State) : Prop :=
  field m data = None ->
  history_of m (step st (Ws_message (Json data))) = history_of m st.

(** *** Statistics *)

(** What [calculateStats] returns, as a function of the buffer. *)
Definition stats_of (buffer : list Snapshot.t) : Stats.t :=
  {| Stats.cpu :=
       {| Series.avg := avg (map (scalar CpuPercent) buffer);
          Series.min := Math_min (map (scalar CpuPercent) buffer);
          Series.max := Math_max (map (scalar CpuPercent) buffer) |};
     Stats.memory :=
       {| Series.avg := avg (map (scalar MemoryPercent) buffer);
          Series.min := Math_min (map (scalar MemoryPercent) buffer);
          Series.max := Math_max (map (scalar MemoryPercent) buffer) |};
     Stats.network :=
       {| NetStats.uploadAvg := avg (map (scalar NetUpload) buffer);
          NetStats.downloadAvg := avg (map (scalar NetDownload) buffer) |} |}.

(** The three reductions, and the property of the returned object that
    holds a given reduction of a given metric, if there is one. *)
Inductive reduction : Type := Mean | Minimum | Maximum.

Definition stat_of (s : Stats.t) (m : metric) (r : reduction) : option number :=
  match m, r with
  | CpuPercent, Mean => Some (Series.avg (Stats.cpu s))
  | CpuPercent, Minimum => Some (Series.min (Stats.cpu s))
  | CpuPercent, Maximum => Some (Series.max (Stats.cpu s))
  | MemoryPercent, Mean => Some (Series.avg (Stats.memory s))
  | MemoryPercent, Minimum => Some (Series.min (Stats.memory s))
  | MemoryPercent, Maximum => Some (Series.max (Stats.memory s))
  | NetUpload, Mean => Some (NetStats.uploadAvg (Stats.network s))
  | NetDownload, Mean => Some (NetStats.downloadAvg (Stats.network s))
  | NetUpload, _ | NetDownload, _ => None
  end.

(** The reductions as the specification words them: the value of a
    snapshot for a metric is its field (bytes per second divided by 1024
    for the two network metrics), or 0 when the field is missing; the mean
    divides the sum by the number of snapshots. *)
Definition spec_value (m : metric) (d : Snapshot.t) : Q :=
  match field m d with
  | Some x =>
      match m with
      | NetUpload | NetDownload => (x / 1024)%Q
      | CpuPercent | MemoryPercent => x
      end
  | None => 0%Q
  end.

Fixpoint total (l : list Q) : Q :=
  match l with
  | [] => 0%Q
  | x :: rest => (x + total rest)%Q
  end.

Definition arithmetic_mean (l : list Q) : Q :=
  (total l / inject_Z (Z.of_nat (length l)))%Q.

Definition is_minimum (v : Q) (l : list Q) : Prop :=
  (exists x, In x l /\ (x == v)%Q) /\ forall x, In x l -> (v <= x)%Q.

Definition is_maximum (v : Q) (l : list Q) : Prop :=
  (exists x, In x l /\ (x == v)%Q) /\ forall x, In x l -> (x <= v)%Q.

Definition reduces (r : reduction) (l : list Q) (v : number) : Prop :=
  match v with
  | Num q =>
      match r with
      | Mean => (q == arithmetic_mean l)%Q
      | Minimum => is_minimum q l
      | Maximum => is_maximum q l
      end
  | _ => False
  end.


(** C4 as it is worded: every one of the four metrics has its mean, its
    minimum and its maximum in the object returned for [buffer]. *)
Definition reports_every_reduction (buffer : list Snapshot.t) : Prop :=
  forall (m : metric) (r : reduction),
  exists v : number,
    stat_of (stats_of buffer) m r = Some v
    /\ reduces r (map (spec_value m) buffer) v.

(** The first half of C6 as it is worded: on an empty buffer the call of
    [calculateStats] ends in an exception. *)
Definition fails_when_empty (st : State) : Prop :=
  recordingData st = [] ->
  exists (e : exn) (st' : State), calculateStats st = Abrupt e st'.

Definition no_data : string := "녹화된 데이터가 없습니다.".

(** An export attempt that took [st] to [st'] was refused: nothing was
    saved and the "no data" alert was shown. *)
Definition refused (st st' : State) : Prop :=
  saved st' = saved st /\ alerts st' = push (alerts st) no_data.

(** *** Recording session *)

(** The status of the session, read off the script's variables: nothing
    recorded yet, recording, or a recording that was stopped. *)
Inductive SessionStatus : Type := Idle | Active | Completed.

Definition session_status (st : State) : SessionStatus :=
  if isRecording st then Active
  else match recordingStartTime st with
       | None => Idle
       | Some _ => Completed
       end.

(** C8 as it is worded, for the export function and for a click on the
    export button: outside Completed-with-data, the export is refused. *)
Definition export_valid (st : State) : bool :=
  match session_status st, recordingData st with
  | Completed, _ :: _ => true
  | _, _ => false
  end.

Definition export_gated_by_status (st : State) : Prop :=
  export_valid st = false -> refused st (state_after (downloadPDF st)).

Definition click_gated_by_status (st : State) : Prop :=
  export_valid st = false -> refused st (step st Click_downloadPdfBtn).

(** A recording in progress with one snapshot in its buffer. *)
Definition recording_one : State :=
  run (init some_page 0)
    [Click_startRecordingBtn; Ws_message (Json (cpu_only 10))].

(** A first session stopped by hand after one minute, a second one
    started a minute later, and the time up to the millisecond before the
    first session's five minutes are over. *)
Definition two_sessions : list event :=
  [ Click_startRecordingBtn; Elapse 60000;     (* session 1: 0 .. 60 s *)
    Click_startRecordingBtn; Elapse 60000;     (* stopped by the user *)
    Click_startRecordingBtn; Elapse 179999 ].  (* session 2 starts at 120 s *)

(** The two ways a recording stops: the user clicks the button while it
    shows "stop", or the deadline callback runs. *)
Inductive stops (st : State) : State -> Prop :=
| stops_by_user :
    isRecording st = true -> stops st (step st Click_startRecordingBtn)
| stops_by_deadline :
    isRecording st = true -> stops st (state_after (autoStop st)).

(** The part of the state that is neither the recording flag, nor a
    timer, nor the page. *)
Definition data_of (st : State) :=
  (recordingData st, historyData st, recordingStartTime st, ws st,
   saved st, alerts st, clock st, sockets_created st).

Definition is_start_click (e : event) : bool :=
  match e with
  | Click_startRecordingBtn => true
  | _ => false
  end.

(** *** Connection *)

(** C7's scheduling clause as it is worded: the handler that took [st]
    to [st'] left a pending timeout that calls [connectWebSocket] three
    seconds after the time of [st]. *)
Definition reconnect_scheduled (st st' : State) : Prop :=
  exists t : Timeout,
    In t (timeouts st')
    /\ action t = connectWebSocket_cb /\ due t = (clock st + 3000)%Z.

(** The page just loaded, with the first socket open. *)
Definition connected : State := run (init some_page 0) [Ws_open].

(** [n] connection attempts that fail one after the other: the socket
    reports an error and closes, and three seconds pass. *)
Fixpoint failed_attempts (n : nat) : list event :=
  match n with
  | O => []
  | S n' => failed_attempts n' ++ [Ws_error; Ws_close; Elapse 3000]
  end.

(** The statistics of an empty buffer: [0 / 0], [Math.min()], [Math.max()]. *)
Definition stats_of_nothing : Stats.t :=
  {| Stats.cpu :=
       {| Series.avg := NaN; Series.min := Infinity; Series.max := NegInfinity |};
     Stats.memory :=
       {| Series.avg := NaN; Series.min := Infinity; Series.max := NegInfinity |};
     Stats.network :=
       {| NetStats.uploadAvg := NaN; NetStats.downloadAvg := NaN |} |}.

(** The file an export of [buffer] saves. *)
Definition report_of (buffer : list Snapshot.t) : Report :=
  {| duration_seconds := length buffer; statistics := stats_of buffer |}.

(** While a recording runs, the export button is disabled. *)
Definition button_follows_flag (st : State) : Prop :=
  isRecording st = true -> downloadPdfBtn_disabled (dom st) = true.

(** A stopped session holding [buffer], with the export button enabled. *)
Definition stopped_with (buffer : list Snapshot.t) (st : State) : Prop :=
  isRecording st = false
  /\ downloadPdfBtn_disabled (dom st) = false
  /\ recordingData st = buffer.

Definition no_start_click (evs : list event) : bool :=
  forallb (fun e => negb (is_start_click e)) evs.

(* ------------------------------------------------------------------ *)
(** ** Further notions: the page, the buffer, the reports              *)
(* ------------------------------------------------------------------ *)

(** The recording elements of the page say what the flag says. *)
Definition page_shows_flag (st : State) : Prop :=
  recordingDot_active (dom st) = isRecording st
  /\ startRecordingBtn (dom st)
     = (if isRecording st then StopFace else StartFace)
  /\ (recordingStartTime st <> None ->
        downloadPdfBtn_disabled (dom st) = isRecording st
        /\ recordingText (dom st)
           = (if isRecording st then "녹화 중..." else "녹화 완료")).

(** The connection indicator, and the last thing the socket reported:
    [Some true] for an open, [Some false] for a close or an error. *)
Definition indicator (st : State) : string * string :=
  (status_dot (dom st), status_text (dom st)).

Definition link_report (e : event) : option bool :=
  match e with
  | Ws_open => Some true
  | Ws_close | Ws_error => Some false
  | _ => None
  end.

Fixpoint last_link_report (evs : list event) : option bool :=
  match evs with
  | [] => None
  | e :: rest =>
      match last_link_report rest with
      | Some r => Some r
      | None => link_report e
      end
  end.

(** A number that is neither [NaN] nor an infinity. *)
Definition finite (n : number) : Prop := exists q : Q, n = Num q.

Definition finite_stats (s : Stats.t) : Prop :=
  finite (Series.avg (Stats.cpu s))
  /\ finite (Series.min (Stats.cpu s))
  /\ finite (Series.max (Stats.cpu s))
  /\ finite (Series.avg (Stats.memory s))
  /\ finite (Series.min (Stats.memory s))
  /\ finite (Series.max (Stats.memory s))
  /\ finite (NetStats.uploadAvg (Stats.network s))
  /\ finite (NetStats.downloadAvg (Stats.network s)).


(** *** Timers *)

Definition timeout_ids (st : State) : list nat := map timeout_id (timeouts st).

(** What one round of [run_timers] does with the timeout [t] it picked. *)
Definition fire (t : Timeout) (st : State) : State :=
  state_after
    (run_callback (action t)
       (with_timeouts (without (timeout_id t) (timeouts st))
          (with_clock (Z.max (clock st) (due t)) st))).

(** The bookkeeping of timer ids that every reachable state satisfies:
    ids are fresh and distinct, and the id kept in [recordingTimer] is
    not that of a timeout. *)
Definition ids_well_formed (st : State) : Prop :=
  (forall t, In t (timeouts st) -> timeout_id t < next_timer_id st)
  /\ NoDup (timeout_ids st)
  /\ (forall id, recordingTimer st = Some id ->
        id < next_timer_id st /\ ~ In id (timeout_ids st)).

(** While a recording runs, its own deadline is pending, due
    [RECORDING_DURATION] after its start. *)
Definition own_deadline_pending (st : State) : Prop :=
  isRecording st = true ->
  exists (s : Z) (id : nat),
    recordingStartTime st = Some s
    /\ In {| timeout_id := id;
             due := (s + RECORDING_DURATION)%Z;
             action := autoStop_cb |} (timeouts st).

Definition timers_well_formed (st : State) : Prop :=
  ids_well_formed st /\ own_deadline_pending st.

(** The timeouts that [clearInterval handle] leaves pending. *)
Definition spared (handle : option nat) (t : Timeout) : bool :=
  match handle with
  | Some id => negb (Nat.eqb (timeout_id t) id)
  | None => true
  end.

(** Every pending timeout is due in the future. *)
Definition timeouts_ahead (st : State) : Prop :=
  forall t, In t (timeouts st) -> (clock st < due t)%Z.

(** The variables that the timers and the session depend on. *)
Definition timer_view (st : State) :=
  (timeouts st, next_timer_id st, recordingTimer st, isRecording st,
   recordingStartTime st, clock st, intervals st, sockets_created st).

(** The events that neither register nor cancel a timer, nor start or
    stop a recording, nor open a socket. *)
Definition is_quiet (e : event) : bool :=
  match e with
  | Click_downloadPdfBtn | Ws_open | Ws_error | Ws_message _ => true
  | Click_startRecordingBtn | Ws_close | Elapse _ => false
  end.

(** The start of a session is not in the future. *)
Definition started_in_the_past (st : State) : Prop :=
  forall s, recordingStartTime st = Some s -> (s <= clock st)%Z.

(** The intervals that [clearInterval handle] leaves running. *)
Definition spared_interval (handle : option nat) (p : nat * callback) : bool :=
  match handle with
  | Some id => negb (Nat.eqb (fst p) id)
  | None => true
  end.

(** The intervals are the page clock, registered at load under id 1,
    and, exactly while a recording runs, the recording clock under the id
    kept in [recordingTimer]. *)
Definition intervals_tidy (st : State) : Prop :=
  2 <= next_timer_id st
  /\ (isRecording st = false -> intervals st = [(1, updateTime_cb)])
  /\ (isRecording st = true ->
        exists id : nat,
          recordingTimer st = Some id /\ 1 < id
          /\ intervals st = [(1, updateTime_cb); (id, updateRecordingTime_cb)]).

(** Pending reconnections, and the closes among some events. *)
Definition is_reconnect (t : Timeout) : bool :=
  match action t with
  | connectWebSocket_cb => true
  | _ => false
  end.

Definition pending_reconnects (st : State) : nat :=
  length (filter is_reconnect (timeouts st)).

Definition is_close (e : event) : bool :=
  match e with
  | Ws_close => true
  | _ => false
  end.

Definition closes (evs : list event) : nat := length (filter is_close evs).

(** No deadline of an earlier session is pending. *)
Definition no_deadline_pending (st : State) : Prop :=
  forall t, In t (timeouts st) -> action t <> autoStop_cb.

(** A session started at [c0], with no deadline pending but its own, is
    running unless its deadline has passed. *)
Definition runs_until_deadline (c0 limit : Z) (st : State) : Prop :=
  recordingStartTime st = Some c0
  /\ (forall t, In t (timeouts st) -> action t = autoStop_cb ->
        due t = (c0 + RECORDING_DURATION)%Z)
  /\ (isRecording st = true \/ (c0 + RECORDING_DURATION <= limit)%Z).

(* ------------------------------------------------------------------ *)
(** ** The clock of the recording                                      *)
(* ------------------------------------------------------------------ *)

From Stdlib Require Import Ascii DecimalString.






(* ------------------------------------------------------------------ *)
(** ** Rolling history                                                 *)
(* ------------------------------------------------------------------ *)

Section Window.
Context {A : Type}.

Lemma tl_skipn (k : nat) (l : list A) : tl (skipn k l) = skipn (S k) l.
Proof.
  revert l; induction k as [|k IH]; intros [|a l]; simpl; auto.
Qed.

Lemma lastn_length (n : nat) (l : list A) :
  length (lastn n l) = Nat.min (length l) n.
Proof. unfold lastn. rewrite length_skipn. lia. Qed.

Lemma lastn_short (n : nat) (l : list A) : length l <= n -> lastn n l = l.
Proof.
  intros H. unfold lastn.
  replace (length l - n) with 0 by lia. reflexivity.
Qed.

(** Appending to a full window and dropping its head slides the window. *)
Lemma lastn_slide (n : nat) (l : list A) (x : A) :
  n <= length l -> tl (lastn n l ++ [x]) = lastn n (l ++ [x]).
Proof.
  intros H. unfold lastn. rewrite last_length.
  destruct n as [|n].
  - rewrite !Nat.sub_0_r, skipn_all.
    rewrite <- last_length with (a := x), skipn_all. reflexivity.
  - rewrite skipn_app.
    replace (S (length l) - S n - length l) with 0 by lia.
    replace (S (length l) - S n) with (S (length l - S n)) by lia.
    rewrite <- tl_skipn. simpl.
    destruct (skipn (length l - S n) l) as [|a r] eqn:E; [|reflexivity].
    apply (f_equal (@length A)) in E. rewrite length_skipn in E.
    simpl in E. lia.
Qed.

Lemma lastn_grow (n : nat) (l : list A) (x : A) :
  length l < n -> lastn n l ++ [x] = lastn n (l ++ [x]).
Proof.
  intros H. rewrite (lastn_short n l) by lia.
  rewrite lastn_short; [reflexivity|]. rewrite last_length. lia.
Qed.

End Window.

Lemma tick_lastn (n : nat) (xs : list Q) (x : Q) :
  n = S (Nat.min (length xs) MAX_HISTORY) ->
  tick n (lastn MAX_HISTORY xs) x = lastn MAX_HISTORY (xs ++ [x]).
Proof.
  intros ->. unfold tick, push, shift.
  destruct (Nat.ltb_spec MAX_HISTORY (S (Nat.min (length xs) MAX_HISTORY)))
    as [Hfull|Hroom].
  - apply lastn_slide. lia.
  - apply lastn_grow. lia.
Qed.

Lemma updateCharts_spec (data : Snapshot.t) (st : State) :
  updateCharts data st
  = Normal tt (with_historyData (chart_tick data (historyData st)) st).
Proof.
  unfold updateCharts, chart_tick, tick, bind, write_history, write, read, ret,
    cpu_history, memory_history, upload_history.
  cbn [historyData with_historyData History.cpu History.memory History.network
       NetHistory.upload NetHistory.download set_cpu set_memory set_upload
       set_download].
  destruct (Nat.ltb MAX_HISTORY
              (length (push (History.cpu (historyData st))
                         (scalar CpuPercent data))));
  cbn [historyData with_historyData History.cpu History.memory History.network
       NetHistory.upload NetHistory.download set_cpu set_memory set_upload
       set_download];
  destruct (Nat.ltb MAX_HISTORY
              (length (push (History.memory (historyData st))
                         (scalar MemoryPercent data))));
  cbn [historyData with_historyData History.cpu History.memory History.network
       NetHistory.upload NetHistory.download set_cpu set_memory set_upload
       set_download];
  destruct (Nat.ltb MAX_HISTORY
              (length (push (NetHistory.upload (History.network (historyData st)))
                         (scalar NetUpload data))));
  reflexivity.
Qed.

(** *** What each event does to the history *)

Ltac js_unfold :=
  unfold dispatch, run_callback, toggleRecording, autoStop, startRecording,
    stopRecording, downloadPDF, calculateStats, ws_onopen, ws_onclose,
    ws_onerror, ws_onmessage, updateDashboard, updatePanels,
    updateConnectionStatus, connectWebSocket, new_WebSocket, set_readyState,
    setTimeout, setInterval, clearInterval, alert, save, Date_now, JSON_parse,
    write_dom, write, read, ret, bind, throw.

(** An invariant of the timer callbacks is an invariant of [run_timers]. *)
Lemma run_timers_invariant (P : State -> Prop) :
  (forall st ts, P st -> P (with_timeouts ts st)) ->
  (forall st c, P st -> P (with_clock c st)) ->
  (forall st cb, P st -> P (state_after (run_callback cb st))) ->
  forall fuel until st, P st -> P (run_timers fuel until st).
Proof.
  intros Hts Hclock Hcb. induction fuel as [|fuel IH]; intros horizon st HP.
  - exact HP.
  - simpl. destruct (earliest (due_by horizon (timeouts st))) as [t|].
    + apply IH, Hcb, Hts, Hclock, HP.
    + exact HP.
Qed.

Lemma elapse_invariant (P : State -> Prop) :
  (forall st ts, P st -> P (with_timeouts ts st)) ->
  (forall st c, P st -> P (with_clock c st)) ->
  (forall st cb, P st -> P (state_after (run_callback cb st))) ->
  forall ms st, P st -> P (elapse ms st).
Proof.
  intros Hts Hclock Hcb ms st HP. unfold elapse.
  destruct (ms <? 0)%Z; [exact HP|].
  apply Hclock, run_timers_invariant; assumption.
Qed.

Lemma callback_historyData (cb : callback) (st : State) :
  historyData (state_after (run_callback cb st)) = historyData st.
Proof.
  destruct cb; js_unfold; cbn; try reflexivity.
  destruct (isRecording st); cbn; [|reflexivity].
  destruct (recordingTimer st); reflexivity.
Qed.

Lemma elapse_historyData (ms : Z) (st : State) :
  historyData (elapse ms st) = historyData st.
Proof.
  apply (elapse_invariant (fun s => historyData s = historyData st));
    auto; intros s cb Hs; rewrite callback_historyData; exact Hs.
Qed.

Lemma step_historyData (st : State) (e : event) :
  historyData (step st e)
  = match e with
    | Ws_message (Json data) => chart_tick data (historyData st)
    | _ => historyData st
    end.
Proof.
  destruct e as [| | | | |[data|]|ms]; cbn [step].
  - js_unfold. cbn. destruct (isRecording st); cbn; [|reflexivity].
    destruct (recordingTimer st); reflexivity.
  - js_unfold. cbn. destruct (downloadPdfBtn_disabled (dom st)); cbn;
      [reflexivity|].
    destruct (Nat.eqb (length (recordingData st)) 0); reflexivity.
  - reflexivity.
  - reflexivity.
  - reflexivity.
  - unfold dispatch, ws_onmessage, updateDashboard, updatePanels, JSON_parse,
      bind, ret, read, write.
    rewrite updateCharts_spec. cbn.
    destruct (isRecording st); reflexivity.
  - reflexivity.
  - apply elapse_historyData.
Qed.

Lemma chart_tick_windows (snaps : list Snapshot.t) (data : Snapshot.t) :
  chart_tick data (windows snaps) = windows (snaps ++ [data]).
Proof.
  unfold chart_tick, windows, window. cbn [History.cpu History.memory
    History.network NetHistory.upload NetHistory.download].
  rewrite !map_app. cbn [map]. unfold push.
  rewrite !tick_lastn; [reflexivity| |..];
    rewrite last_length, lastn_length, !length_map; reflexivity.
Qed.

Lemma run_snoc (st : State) (evs : list event) (e : event) :
  run st (evs ++ [e]) = step (run st evs) e.
Proof. unfold run. rewrite fold_left_app. reflexivity. Qed.

Lemma accepted_snoc (evs : list event) (e : event) :
  accepted (evs ++ [e]) = accepted evs ++ accepted [e].
Proof. unfold accepted. apply flat_map_app. Qed.

(** From page load on, the history is the window over what arrived. *)
Lemma history_run (page : Dom) (t0 : Z) (evs : list event) :
  historyData (run (init page t0) evs) = windows (accepted evs).
Proof.
  induction evs as [|e evs IH] using rev_ind.
  - reflexivity.
  - rewrite run_snoc, accepted_snoc, step_historyData, IH.
    destruct e as [| | | | |[data|]|ms]; cbn [accepted flat_map app];
      rewrite ?app_nil_r; try reflexivity.
    apply chart_tick_windows.
Qed.

Lemma history_of_run (page : Dom) (t0 : Z) (evs : list event) (m : metric) :
  history_of m (run (init page t0) evs)
  = map (scalar m) (lastn MAX_HISTORY (accepted evs)).
Proof.
  assert (H : history_of m (run (init page t0) evs) = window m (accepted evs)).
  { destruct m; unfold history_of, cpu_history, memory_history,
      upload_history, download_history; rewrite history_run; reflexivity. }
  rewrite H. unfold window, lastn. rewrite skipn_map, length_map. reflexivity.
Qed.

(** C2: for every sequence of events from page load on, with N the number
    of snapshots it delivers: when N > 60, each of the four histories has
    length exactly 60 and holds the scalars of the last 60 snapshots in
    arrival order, oldest first; when N <= 60, it has length N (and holds
    the scalars of all of them). *)
Theorem history_is_last_60
  (page : Dom) (t0 : Z) (evs : list event) (m : metric) :
  (MAX_HISTORY < length (accepted evs) ->
     length (history_of m (run (init page t0) evs)) = 60
     /\ history_of m (run (init page t0) evs)
        = map (scalar m) (lastn 60 (accepted evs)))
  /\ (length (accepted evs) <= MAX_HISTORY ->
        length (history_of m (run (init page t0) evs)) = length (accepted evs)
        /\ history_of m (run (init page t0) evs) = map (scalar m) (accepted evs)).
Proof.
  rewrite history_of_run, length_map, lastn_length. unfold MAX_HISTORY.
  split; intros H.
  - split; [lia|reflexivity].
  - split; [lia|]. rewrite lastn_short by exact H. reflexivity.
Qed.

Lemma history_is_last_60_witness :
  length (history_of CpuPercent (run (init some_page 0) sixty_one)) = 60
  /\ history_of CpuPercent (run (init some_page 0) sixty_one)
     = map (scalar CpuPercent) (lastn 60 (accepted sixty_one)).
Proof.
  apply (proj1 (history_is_last_60 some_page 0 sixty_one CpuPercent)).
  vm_compute. apply le_n.
Defined.

(** C9: in every state reached from page load, the upload and the
    download history have the same length, at most 60, and entry i of
    each comes from the same snapshot: both are projections of the last
    60 snapshots delivered. *)
Theorem network_histories_aligned (page : Dom) (t0 : Z) (evs : list event) :
  length (upload_history (run (init page t0) evs))
  = length (download_history (run (init page t0) evs))
  /\ length (upload_history (run (init page t0) evs)) <= 60
  /\ upload_history (run (init page t0) evs)
     = map (scalar NetUpload) (lastn MAX_HISTORY (accepted evs))
  /\ download_history (run (init page t0) evs)
     = map (scalar NetDownload) (lastn MAX_HISTORY (accepted evs)).
Proof.
  pose proof (history_of_run page t0 evs NetUpload) as Hup.
  pose proof (history_of_run page t0 evs NetDownload) as Hdown.
  cbn [history_of] in Hup, Hdown. rewrite Hup, Hdown, !length_map.
  repeat split. rewrite lastn_length. unfold MAX_HISTORY. lia.
Qed.

(** One step of the same fact: [updateCharts] keeps the two series of
    equal length, whatever the state. *)
Lemma updateCharts_keeps_alignment (data : Snapshot.t) (st : State) :
  length (upload_history st) = length (download_history st) ->
  length (upload_history (state_after (updateCharts data st)))
  = length (download_history (state_after (updateCharts data st))).
Proof.
  intros H. rewrite updateCharts_spec.
  unfold upload_history, download_history in *.
  cbn [state_after historyData with_historyData chart_tick History.network
       NetHistory.upload NetHistory.download].
  unfold tick, shift, push.
  destruct (Nat.ltb _ _).
  - destruct (NetHistory.upload (History.network (historyData st)));
    destruct (NetHistory.download (History.network (historyData st)));
    simpl in *; try discriminate; rewrite ?last_length; auto.
  - rewrite !last_length. auto.
Qed.

(** C5: a message that [JSON.parse] rejects makes the handler throw
    before any assignment: the state is unchanged (no history is touched
    and the recording buffer keeps its length), and the events that follow
    are handled as if the message had never arrived. *)
Theorem malformed_message_is_dropped (st : State) (evs1 evs2 : list event) :
  ws_onmessage NotJson st = Abrupt SyntaxError st
  /\ step st (Ws_message NotJson) = st
  /\ historyData (step st (Ws_message NotJson)) = historyData st
  /\ length (recordingData (step st (Ws_message NotJson)))
     = length (recordingData st)
  /\ run st (evs1 ++ Ws_message NotJson :: evs2) = run st (evs1 ++ evs2).
Proof.
  repeat split.
  unfold run. rewrite !fold_left_app. reflexivity.
Qed.

(** C3 fails: on a message without a [cpu] section, arriving on the page
    just loaded, the CPU history goes from empty to [[0]]. *)
Lemma missing_cpu_is_not_skipped :
  history_of CpuPercent (step (init some_page 0) (Ws_message (Json bare)))
  = [0%Q]
  /\ ~ skipped_when_missing CpuPercent bare (init some_page 0).
Proof.
  split; [reflexivity|].
  intros H. specialize (H eq_refl). discriminate H.
Qed.

Lemma scalar_missing (m : metric) (data : Snapshot.t) :
  field m data = None -> (scalar m data == 0)%Q.
Proof.
  intros H. destruct m; unfold scalar; rewrite H; reflexivity.
Qed.

(** C3, amended: when the field of a metric is missing from an accepted
    snapshot, [updateCharts] appends the value 0 to the history of that
    metric, and then drops the oldest entry if the series it tests is
    longer than 60; the update is not skipped. *)
Theorem missing_metric_pushes_zero
  (m : metric) (data : Snapshot.t) (st : State) :
  field m data = None ->
  exists zero : Q,
    (zero == 0)%Q
    /\ history_of m (step st (Ws_message (Json data)))
       = tick (S (length (history_of (tested_series m) st)))
           (history_of m st) zero.
Proof.
  intros H. exists (scalar m data). split; [apply scalar_missing, H|].
  unfold history_of, cpu_history, memory_history, upload_history,
    download_history.
  rewrite step_historyData. unfold chart_tick, push.
  destruct m; cbn [History.cpu History.memory History.network
                   NetHistory.upload NetHistory.download tested_series];
    rewrite last_length; reflexivity.
Qed.

Lemma missing_metric_pushes_zero_witness :
  exists zero : Q,
    (zero == 0)%Q
    /\ history_of NetUpload (step (init some_page 0) (Ws_message (Json bare)))
       = tick (S (length (history_of (tested_series NetUpload)
                            (init some_page 0))))
           (history_of NetUpload (init some_page 0)) zero.
Proof.
  apply (missing_metric_pushes_zero NetUpload bare (init some_page 0)).
  reflexivity.
Defined.

(* ------------------------------------------------------------------ *)
(** ** Statistics                                                      *)
(* ------------------------------------------------------------------ *)

(** [calculateStats] returns normally and assigns nothing. *)
Lemma calculateStats_spec (st : State) :
  calculateStats st = Normal (stats_of (recordingData st)) st.
Proof. reflexivity. Qed.

Lemma or0_value (x : Q) : (or0 (Some x) == x)%Q.
Proof.
  unfold or0. destruct (Qeq_bool x 0) eqn:E; [|reflexivity].
  symmetry. apply Qeq_bool_eq, E.
Qed.

(** The value the script computes is the one the specification names. *)
Lemma scalar_spec_value (m : metric) (d : Snapshot.t) :
  (scalar m d == spec_value m d)%Q.
Proof.
  unfold scalar, spec_value.
  destruct m; destruct (field _ d) as [x|]; try reflexivity;
    try apply or0_value; rewrite or0_value; reflexivity.
Qed.

Lemma fold_plus_total (l : list Q) (a : Q) :
  (fold_left (fun a b => a + b) l a == a + total l)%Q.
Proof.
  revert a; induction l as [|x l IH]; intros a; simpl.
  - ring.
  - rewrite IH. ring.
Qed.

Lemma total_map (f g : Snapshot.t -> Q) (l : list Snapshot.t) :
  (forall d, f d == g d)%Q -> (total (map f l) == total (map g l))%Q.
Proof.
  intros H. induction l as [|d l IH]; simpl; [reflexivity|].
  rewrite IH, H. reflexivity.
Qed.

Lemma count_nonzero (n : nat) :
  Qeq_bool (inject_Z (Z.of_nat (S n))) 0 = false.
Proof.
  destruct (Qeq_bool _ _) eqn:E; [|reflexivity].
  apply Qeq_bool_eq in E. unfold Qeq in E. simpl in E. lia.
Qed.

Lemma avg_is_mean (m : metric) (buffer : list Snapshot.t) :
  buffer <> [] ->
  exists q, avg (map (scalar m) buffer) = Num q
            /\ (q == arithmetic_mean (map (spec_value m) buffer))%Q.
Proof.
  intros Hne. destruct buffer as [|d rest]; [contradiction|].
  unfold avg, js_div, arithmetic_mean. rewrite !length_map.
  cbn [length]. rewrite count_nonzero.
  eexists; split; [reflexivity|].
  rewrite fold_plus_total, Qplus_0_l.
  rewrite (total_map (scalar m) (spec_value m)) by apply scalar_spec_value.
  reflexivity.
Qed.

(** [Math.min] and [Math.max] folded from a finite start. *)
Lemma fold_min_from (l : list Q) (a : Q) :
  exists v, fold_left (fun acc x => num_min acc (Num x)) l (Num a) = Num v
            /\ In v (a :: l) /\ forall x, In x (a :: l) -> (v <= x)%Q.
Proof.
  revert a; induction l as [|y l IH]; intros a.
  - exists a. simpl. split; [reflexivity|]. split; [auto|].
    intros x [->|[]]. apply Qle_refl.
  - cbn [fold_left num_min]. destruct (Qle_bool a y) eqn:E.
    + destruct (IH a) as (v & Hv & Hin & Hle). exists v.
      split; [exact Hv|]. split.
      * destruct Hin as [<-|Hin]; [left; reflexivity|right; right; exact Hin].
      * intros x [<-|[<-|Hx]].
        -- apply Hle; left; reflexivity.
        -- apply Qle_trans with a; [apply Hle; left; reflexivity|].
           apply Qle_bool_iff, E.
        -- apply Hle; right; exact Hx.
    + destruct (IH y) as (v & Hv & Hin & Hle). exists v.
      split; [exact Hv|]. split; [right; exact Hin|].
      intros x [<-|Hx]; [|apply Hle, Hx].
      apply Qle_trans with y; [apply Hle; left; reflexivity|].
      apply Qlt_le_weak, Qnot_le_lt. intros H.
      apply Qle_bool_iff in H. congruence.
Qed.

Lemma fold_max_from (l : list Q) (a : Q) :
  exists v, fold_left (fun acc x => num_max acc (Num x)) l (Num a) = Num v
            /\ In v (a :: l) /\ forall x, In x (a :: l) -> (x <= v)%Q.
Proof.
  revert a; induction l as [|y l IH]; intros a.
  - exists a. simpl. split; [reflexivity|]. split; [auto|].
    intros x [->|[]]. apply Qle_refl.
  - cbn [fold_left num_max]. destruct (Qle_bool a y) eqn:E.
    + destruct (IH y) as (v & Hv & Hin & Hle). exists v.
      split; [exact Hv|]. split; [right; exact Hin|].
      intros x [<-|Hx]; [|apply Hle, Hx].
      apply Qle_trans with y; [|apply Hle; left; reflexivity].
      apply Qle_bool_iff, E.
    + destruct (IH a) as (v & Hv & Hin & Hle). exists v.
      split; [exact Hv|]. split.
      * destruct Hin as [<-|Hin]; [left; reflexivity|right; right; exact Hin].
      * intros x [<-|[<-|Hx]].
        -- apply Hle; left; reflexivity.
        -- apply Qle_trans with a; [|apply Hle; left; reflexivity].
           apply Qlt_le_weak, Qnot_le_lt. intros H.
           apply Qle_bool_iff in H. congruence.
        -- apply Hle; right; exact Hx.
Qed.

Lemma In_map_spec_value (m : metric) (buffer : list Snapshot.t) (x : Q) :
  In x (map (spec_value m) buffer) ->
  exists y, In y (map (scalar m) buffer) /\ (y == x)%Q.
Proof.
  intros H. apply in_map_iff in H. destruct H as (d & <- & Hd).
  exists (scalar m d). split; [apply in_map, Hd|apply scalar_spec_value].
Qed.

Lemma In_map_scalar (m : metric) (buffer : list Snapshot.t) (y : Q) :
  In y (map (scalar m) buffer) ->
  exists x, In x (map (spec_value m) buffer) /\ (x == y)%Q.
Proof.
  intros H. apply in_map_iff in H. destruct H as (d & <- & Hd).
  exists (spec_value m d). split; [apply in_map, Hd|].
  symmetry. apply scalar_spec_value.
Qed.

Lemma min_is_minimum (m : metric) (buffer : list Snapshot.t) :
  buffer <> [] ->
  exists q, Math_min (map (scalar m) buffer) = Num q
            /\ is_minimum q (map (spec_value m) buffer).
Proof.
  intros Hne. destruct buffer as [|d rest]; [contradiction|].
  unfold Math_min. cbn [map fold_left num_min].
  destruct (fold_min_from (map (scalar m) rest) (scalar m d))
    as (v & Hv & Hin & Hle).
  exists v. split; [exact Hv|]. split.
  - apply (In_map_scalar m (d :: rest)), Hin.
  - intros x Hx. apply (In_map_spec_value m (d :: rest)) in Hx.
    destruct Hx as (y & Hy & Hyx). rewrite <- Hyx. apply Hle, Hy.
Qed.

Lemma max_is_maximum (m : metric) (buffer : list Snapshot.t) :
  buffer <> [] ->
  exists q, Math_max (map (scalar m) buffer) = Num q
            /\ is_maximum q (map (spec_value m) buffer).
Proof.
  intros Hne. destruct buffer as [|d rest]; [contradiction|].
  unfold Math_max. cbn [map fold_left num_max].
  destruct (fold_max_from (map (scalar m) rest) (scalar m d))
    as (v & Hv & Hin & Hle).
  exists v. split; [exact Hv|]. split.
  - apply (In_map_scalar m (d :: rest)), Hin.
  - intros x Hx. apply (In_map_spec_value m (d :: rest)) in Hx.
    destruct Hx as (y & Hy & Hyx). rewrite <- Hyx. apply Hle, Hy.
Qed.

(** C4 fails: for a buffer of one snapshot the returned object has no
    minimum of the upload rate (nor any minimum or maximum of a network
    metric). *)
Lemma no_network_minimum :
  stat_of (stats_of [cpu_only 10]) NetUpload Minimum = None
  /\ ~ reports_every_reduction [cpu_only 10].
Proof.
  split; [reflexivity|].
  intros H. destruct (H NetUpload Minimum) as (v & Hv & _). discriminate Hv.
Qed.

(** C4, amended: for every non-empty buffer [calculateStats] returns the
    arithmetic mean of each of the four metrics, and the minimum and the
    maximum of [cpu.percent] and [memory.virtual.percent]; a snapshot
    missing the field counts as 0 and counts in the denominator.  For the
    two network metrics the object holds the mean only. *)
Theorem stats_of_nonempty_buffer (st : State) (m : metric) :
  recordingData st <> [] ->
  exists s : Stats.t,
    calculateStats st = Normal s st
    /\ (exists v, stat_of s m Mean = Some v
                  /\ reduces Mean (map (spec_value m) (recordingData st)) v)
    /\ (forall r, m = CpuPercent \/ m = MemoryPercent ->
          exists v, stat_of s m r = Some v
                    /\ reduces r (map (spec_value m) (recordingData st)) v)
    /\ (m = NetUpload \/ m = NetDownload ->
          stat_of s m Minimum = None /\ stat_of s m Maximum = None).
Proof.
  intros Hne. exists (stats_of (recordingData st)).
  split; [apply calculateStats_spec|].
  assert (Hmean : exists v,
    stat_of (stats_of (recordingData st)) m Mean = Some v
    /\ reduces Mean (map (spec_value m) (recordingData st)) v).
  { destruct (avg_is_mean m _ Hne) as (q & Hq & Hmean).
    exists (Num q). split; [|exact Hmean].
    destruct m; cbn; rewrite Hq; reflexivity. }
  split; [exact Hmean|]. split.
  - intros r Hm. destruct r; [exact Hmean| |].
    + destruct (min_is_minimum m _ Hne) as (q & Hq & Hmin).
      exists (Num q). split; [|exact Hmin].
      destruct Hm as [->| ->]; cbn; rewrite Hq; reflexivity.
    + destruct (max_is_maximum m _ Hne) as (q & Hq & Hmax).
      exists (Num q). split; [|exact Hmax].
      destruct Hm as [->| ->]; cbn; rewrite Hq; reflexivity.
  - intros [->| ->]; split; reflexivity.
Qed.

Lemma stats_of_nonempty_buffer_witness :
  exists s : Stats.t,
    calculateStats recording_one = Normal s recording_one
    /\ (exists v, stat_of s CpuPercent Mean = Some v
                  /\ reduces Mean
                       (map (spec_value CpuPercent) (recordingData recording_one)) v)
    /\ (forall r, CpuPercent = CpuPercent \/ CpuPercent = MemoryPercent ->
          exists v, stat_of s CpuPercent r = Some v
                    /\ reduces r
                         (map (spec_value CpuPercent)
                            (recordingData recording_one)) v)
    /\ (CpuPercent = NetUpload \/ CpuPercent = NetDownload ->
          stat_of s CpuPercent Minimum = None
          /\ stat_of s CpuPercent Maximum = None).
Proof.
  apply (stats_of_nonempty_buffer recording_one CpuPercent).
  vm_compute. discriminate.
Defined.

(* ------------------------------------------------------------------ *)
(** ** Export                                                          *)
(* ------------------------------------------------------------------ *)

Lemma downloadPDF_empty (st : State) :
  recordingData st = [] ->
  downloadPDF st = Normal tt (with_alerts (push (alerts st) no_data) st).
Proof.
  intros H. unfold downloadPDF, bind, read, alert, write.
  rewrite H. reflexivity.
Qed.

Lemma downloadPDF_nonempty (st : State) :
  recordingData st <> [] ->
  downloadPDF st
  = Normal tt (with_saved (push (saved st) (report_of (recordingData st))) st).
Proof.
  intros H. unfold downloadPDF, bind, read.
  destruct (recordingData st) as [|d rest] eqn:E; [contradiction|].
  cbn [length Nat.eqb]. rewrite calculateStats_spec, E. reflexivity.
Qed.

(** C6 fails in its first half: on the page just loaded, whose buffer is
    empty, [calculateStats] returns an object of [NaN] and infinities; it
    throws nothing. *)
Lemma empty_buffer_does_not_fail :
  calculateStats (init some_page 0)
  = Normal stats_of_nothing (init some_page 0)
  /\ ~ fails_when_empty (init some_page 0).
Proof.
  split; [reflexivity|].
  intros H. destruct (H eq_refl) as (e & st' & Hthrow). discriminate Hthrow.
Qed.

(** C6, amended: [calculateStats] has no failure of its own: on an
    empty buffer it returns normally, every mean being [NaN], every
    minimum [Infinity] and every maximum [-Infinity].  The empty buffer is
    caught one level up: [downloadPDF] shows the "no data" alert and
    returns without computing statistics or saving anything. *)
Theorem empty_buffer_is_caught_by_export (st : State) :
  recordingData st = [] ->
  calculateStats st = Normal stats_of_nothing st
  /\ downloadPDF st = Normal tt (with_alerts (push (alerts st) no_data) st)
  /\ refused st (state_after (downloadPDF st)).
Proof.
  intros H. split; [|split].
  - rewrite calculateStats_spec, H. reflexivity.
  - apply downloadPDF_empty, H.
  - rewrite downloadPDF_empty by exact H. split; reflexivity.
Qed.

Lemma empty_buffer_is_caught_by_export_witness :
  calculateStats (init some_page 0) = Normal stats_of_nothing (init some_page 0)
  /\ downloadPDF (init some_page 0)
     = Normal tt
         (with_alerts (push (alerts (init some_page 0)) no_data)
            (init some_page 0))
  /\ refused (init some_page 0) (state_after (downloadPDF (init some_page 0))).
Proof.
  apply (empty_buffer_is_caught_by_export (init some_page 0)).
  reflexivity.
Defined.

Lemma callback_button_follows_flag (cb : callback) (st : State) :
  button_follows_flag st ->
  button_follows_flag (state_after (run_callback cb st)).
Proof.
  unfold button_follows_flag.
  destruct cb; js_unfold; cbn; auto.
  destruct (isRecording st) eqn:E; cbn; [|rewrite E; auto].
  destruct (recordingTimer st); cbn; discriminate.
Qed.

Lemma step_button_follows_flag (st : State) (e : event) :
  button_follows_flag st -> button_follows_flag (step st e).
Proof.
  intros H. destruct e as [| | | | |[data|]|ms]; cbn [step].
  - unfold button_follows_flag. js_unfold. cbn.
    destruct (isRecording st); cbn; [|reflexivity].
    destruct (recordingTimer st); cbn; discriminate.
  - unfold button_follows_flag in *. js_unfold. cbn.
    destruct (downloadPdfBtn_disabled (dom st)) eqn:E; cbn; [rewrite E; auto|].
    destruct (Nat.eqb _ 0); cbn; intros Hrec; rewrite H in E; auto.
  - exact H.
  - exact H.
  - exact H.
  - unfold button_follows_flag in *.
    unfold dispatch, ws_onmessage, updateDashboard, updatePanels, JSON_parse,
      bind, ret, read, write.
    rewrite updateCharts_spec. cbn.
    destruct (isRecording st) eqn:E; cbn; [auto|rewrite E; discriminate].
  - exact H.
  - apply elapse_invariant; auto. intros s cb.
    apply callback_button_follows_flag.
Qed.

Lemma run_button_follows_flag (page : Dom) (t0 : Z) (evs : list event) :
  button_follows_flag (run (init page t0) evs).
Proof.
  induction evs as [|e evs IH] using rev_ind.
  - discriminate.
  - rewrite run_snoc. apply step_button_follows_flag, IH.
Qed.

(** C8 fails: with a recording in progress and one snapshot buffered,
    [downloadPDF] saves a report; and a click on the export button, which
    is disabled then, does nothing at all, so no "no data" alert appears
    either. *)
Lemma export_while_recording :
  session_status recording_one = Active
  /\ saved (state_after (downloadPDF recording_one))
     = [report_of [cpu_only 10]]
  /\ ~ export_gated_by_status recording_one
  /\ step recording_one Click_downloadPdfBtn = recording_one
  /\ ~ click_gated_by_status recording_one.
Proof.
  split; [reflexivity|]. split; [reflexivity|]. split; [|split].
  - intros H. destruct (H eq_refl) as [Hsaved _]. discriminate Hsaved.
  - reflexivity.
  - intros H. destruct (H eq_refl) as [_ Halerts]. discriminate Halerts.
Qed.

(** C8, amended: the export is gated by the buffer alone.  With an empty
    buffer, whatever the status of the session, [downloadPDF] shows the
    "no data" alert and saves nothing; with a non-empty buffer, whatever
    the status, it saves a report of that buffer and shows no alert.
    The status acts through the button only: while a recording is
    running the export button is disabled and a click on it changes
    nothing; otherwise a click runs [downloadPDF]. *)
Theorem export_gated_by_buffer (st : State) :
  (recordingData st = [] -> refused st (state_after (downloadPDF st)))
  /\ (recordingData st <> [] ->
        saved (state_after (downloadPDF st))
        = push (saved st) (report_of (recordingData st))
        /\ alerts (state_after (downloadPDF st)) = alerts st)
  /\ (downloadPdfBtn_disabled (dom st) = true ->
        step st Click_downloadPdfBtn = st)
  /\ (downloadPdfBtn_disabled (dom st) = false ->
        step st Click_downloadPdfBtn = state_after (downloadPDF st))
  /\ (forall page t0 evs,
        st = run (init page t0) evs -> isRecording st = true ->
        step st Click_downloadPdfBtn = st).
Proof.
  split; [|split; [|split; [|split]]].
  - intros H. rewrite downloadPDF_empty by exact H. split; reflexivity.
  - intros H. rewrite downloadPDF_nonempty by exact H. split; reflexivity.
  - intros H. cbn [step dispatch]. unfold bind, read. rewrite H. reflexivity.
  - intros H. cbn [step dispatch]. unfold bind, read. rewrite H. reflexivity.
  - intros page t0 evs -> Hrec.
    pose proof (run_button_follows_flag page t0 evs Hrec) as H.
    cbn [step dispatch]. unfold bind, read. rewrite H. reflexivity.
Qed.

Lemma export_gated_by_buffer_witness :
  saved (state_after (downloadPDF recording_one))
  = push (saved recording_one) (report_of (recordingData recording_one))
  /\ alerts (state_after (downloadPDF recording_one)) = alerts recording_one.
Proof.
  apply (proj1 (proj2 (export_gated_by_buffer recording_one))).
  vm_compute. discriminate.
Defined.

(* ------------------------------------------------------------------ *)
(** ** Recording session                                               *)
(* ------------------------------------------------------------------ *)

Lemma stops_stopped (st st' : State) :
  stops st st' ->
  stopped_with (recordingData st) st' /\ data_of st' = data_of st.
Proof.
  intros [Hrec|Hrec]; cbn [step]; js_unfold; cbn; rewrite Hrec; cbn;
    destruct (recordingTimer st); cbn; repeat split.
Qed.

Lemma callback_stopped_with
  (buffer : list Snapshot.t) (cb : callback) (st : State) :
  stopped_with buffer st ->
  stopped_with buffer (state_after (run_callback cb st)).
Proof.
  intros (Hrec & Hbtn & Hbuf).
  destruct cb; js_unfold; cbn; rewrite ?Hrec; cbn; repeat split; assumption.
Qed.

Lemma step_stopped_with (buffer : list Snapshot.t) (st : State) (e : event) :
  is_start_click e = false ->
  stopped_with buffer st -> stopped_with buffer (step st e).
Proof.
  intros He (Hrec & Hbtn & Hbuf).
  destruct e as [| | | | |[data|]|ms]; cbn [step]; try discriminate He.
  - js_unfold. cbn. rewrite Hbtn. cbn.
    destruct (Nat.eqb _ 0); cbn; repeat split; assumption.
  - repeat split; assumption.
  - repeat split; assumption.
  - repeat split; assumption.
  - unfold dispatch, ws_onmessage, updateDashboard, updatePanels, JSON_parse,
      bind, ret, read, write.
    rewrite updateCharts_spec. cbn. rewrite Hrec. cbn.
    repeat split; assumption.
  - repeat split; assumption.
  - apply elapse_invariant; [auto|auto| |repeat split; assumption].
    intros s cb. apply callback_stopped_with.
Qed.

Lemma run_stopped_with (buffer : list Snapshot.t) (evs : list event) :
  forall st, no_start_click evs = true ->
  stopped_with buffer st -> stopped_with buffer (run st evs).
Proof.
  induction evs as [|e evs IH]; intros st Hevs Hst; [exact Hst|].
  cbn in Hevs. apply andb_prop in Hevs. destruct Hevs as [He Hevs].
  apply negb_true_iff in He.
  cbn [run fold_left]. apply IH; [exact Hevs|].
  apply step_stopped_with; assumption.
Qed.

(** C10: a stop, by the user or by the deadline, changes the recording
    flag, timers and the page only; the buffer (like the histories, the
    start time, the socket, the saved files, the alerts and the clock) is
    as it was.  Through every later event that is not a new start the
    buffer stays what it was at the stop; [calculateStats] reads it
    without assigning anything, and an export saves the report of
    exactly that buffer. *)
Theorem stop_keeps_buffer (st st' : State) (evs : list event) :
  stops st st' ->
  no_start_click evs = true ->
  data_of st' = data_of st
  /\ recordingData (run st' evs) = recordingData st
  /\ calculateStats (run st' evs)
     = Normal (stats_of (recordingData st)) (run st' evs)
  /\ (recordingData st <> [] ->
        saved (step (run st' evs) Click_downloadPdfBtn)
        = push (saved (run st' evs)) (report_of (recordingData st))).
Proof.
  intros Hstop Hevs.
  destruct (stops_stopped st st' Hstop) as [Hstopped Hdata].
  destruct (run_stopped_with _ evs st' Hevs Hstopped) as (Hrec & Hbtn & Hbuf).
  split; [exact Hdata|]. split; [exact Hbuf|]. split.
  - rewrite calculateStats_spec, Hbuf. reflexivity.
  - intros Hne. cbn [step dispatch]. unfold bind at 1, read at 1.
    rewrite Hbtn, downloadPDF_nonempty by (rewrite Hbuf; exact Hne).
    rewrite Hbuf. reflexivity.
Qed.

Lemma stop_keeps_buffer_witness :
  recordingData
    (run (step recording_one Click_startRecordingBtn)
       [Ws_message (Json bare); Elapse 1000; Ws_close])
  = recordingData recording_one.
Proof.
  apply (stop_keeps_buffer recording_one
           (step recording_one Click_startRecordingBtn)
           [Ws_message (Json bare); Elapse 1000; Ws_close]).
  - apply stops_by_user. reflexivity.
  - reflexivity.
Defined.

(** Once the session is stopped, the deadline callback does nothing. *)
Lemma autoStop_when_stopped (st : State) :
  isRecording st = false -> autoStop st = Normal tt st.
Proof. intros H. unfold autoStop, bind, read. rewrite H. reflexivity. Qed.

(** [stopRecording] cancels the timer whose id is in [recordingTimer],
    which is the interval; every other pending timeout stays pending. *)
Lemma stopRecording_keeps_timeouts (st : State) (t : Timeout) :
  In t (timeouts st) ->
  recordingTimer st <> Some (timeout_id t) ->
  In t (timeouts (state_after (stopRecording st))).
Proof.
  intros Hin Hid. js_unfold. cbn.
  destruct (recordingTimer st) as [id|]; cbn; [|exact Hin].
  apply filter_In. split; [exact Hin|].
  apply negb_true_iff, Nat.eqb_neq. intros E. apply Hid. rewrite E. reflexivity.
Qed.

(** C1 (the script departs from it): after [two_sessions] the second
    session, started at 120 s, is recording and the deadline of the first
    session, stopped by hand at 60 s, is still pending for 300 s; one
    millisecond later that deadline fires and stops the second session,
    180 s after its start, while its own deadline is still pending for
    420 s. *)
Theorem stale_deadline_stops_next_session :
  isRecording (run (init some_page 0) two_sessions) = true
  /\ recordingStartTime (run (init some_page 0) two_sessions) = Some 120000%Z
  /\ clock (run (init some_page 0) two_sessions) = 299999%Z
  /\ timeouts (run (init some_page 0) two_sessions)
     = [ {| timeout_id := 3; due := 300000; action := autoStop_cb |};
         {| timeout_id := 5; due := 420000; action := autoStop_cb |} ]
  /\ isRecording (step (run (init some_page 0) two_sessions) (Elapse 1)) = false
  /\ session_status (step (run (init some_page 0) two_sessions) (Elapse 1))
     = Completed
  /\ clock (step (run (init some_page 0) two_sessions) (Elapse 1)) = 300000%Z
  /\ timeouts (step (run (init some_page 0) two_sessions) (Elapse 1))
     = [ {| timeout_id := 5; due := 420000; action := autoStop_cb |} ].
Proof. vm_compute. repeat split. Qed.

(* ------------------------------------------------------------------ *)
(** ** Connection                                                      *)
(* ------------------------------------------------------------------ *)

(** A closed socket with nothing else pending is replaced, three seconds
    later, by a new socket that is connecting. *)
Lemma close_then_wait (st : State) :
  timeouts st = [] ->
  sockets_created (run st [Ws_close; Elapse 3000]) = S (sockets_created st)
  /\ ws (run st [Ws_close; Elapse 3000])
     = Some {| serial := sockets_created st; readyState := CONNECTING |}
  /\ clock (run st [Ws_close; Elapse 3000]) = (clock st + 3000)%Z
  /\ timeouts (run st [Ws_close; Elapse 3000]) = []
  /\ status_dot (dom (run st [Ws_close; Elapse 3000]))
     = "status-dot disconnected".
Proof.
  intros H. destruct st; cbn in H; subst.
  unfold run, fold_left, step, elapse. js_unfold.
  cbn -[Z.add Z.leb Z.max].
  rewrite Z.leb_refl. cbn -[Z.add Z.leb Z.max].
  rewrite Nat.eqb_refl. cbn -[Z.add Z.leb Z.max].
  repeat split.
Qed.

Lemma step_error (st : State) :
  step st Ws_error
  = with_dom (with_status "status-dot disconnected" "연결 끊김" (dom st)) st.
Proof. reflexivity. Qed.

Lemma run_app (st : State) (evs1 evs2 : list event) :
  run st (evs1 ++ evs2) = run (run st evs1) evs2.
Proof. unfold run. apply fold_left_app. Qed.

(** However many attempts have failed, the next one comes three seconds
    after the close. *)
Lemma attempts_never_end (page : Dom) (t0 : Z) (n : nat) :
  sockets_created (run (init page t0) (failed_attempts n)) = S n
  /\ ws (run (init page t0) (failed_attempts n))
     = Some {| serial := n; readyState := CONNECTING |}
  /\ clock (run (init page t0) (failed_attempts n))
     = (t0 + 3000 * Z.of_nat n)%Z
  /\ timeouts (run (init page t0) (failed_attempts n)) = [].
Proof.
  induction n as [|n (Hcount & Hws & Hclock & Hpending)].
  - cbn. repeat split. lia.
  - cbn [failed_attempts]. rewrite run_app.
    set (s := run (init page t0) (failed_attempts n)) in *.
    change (run s [Ws_error; Ws_close; Elapse 3000])
      with (run (step s Ws_error) [Ws_close; Elapse 3000]).
    destruct (close_then_wait (step s Ws_error)) as (H1 & H2 & H3 & H4 & _).
    { rewrite step_error. exact Hpending. }
    rewrite H1, H2, H3, H4, step_error. cbn [sockets_created clock with_dom].
    rewrite Hcount, Hclock. repeat split. lia.
Qed.

(** C7 fails in its scheduling clause for errors: on an open connection,
    the error handler leaves no timeout pending. *)
Lemma error_alone_schedules_nothing :
  timeouts (step connected Ws_error) = []
  /\ ~ reconnect_scheduled connected (step connected Ws_error).
Proof.
  split; [reflexivity|].
  intros (t & Hin & _). exact Hin.
Qed.

(** C7, amended: on close the status shown becomes "disconnected" and a
    call of [connectWebSocket] is scheduled exactly 3000 ms later, in
    every state, so with no growth of the delay and no limit on the number
    of attempts; on error the status shown becomes "disconnected" and the
    error handler schedules nothing (the reconnection is scheduled by the
    close handler).  Each attempt installs a new socket, in state
    CONNECTING, and leaves the page as it is; when the socket opens, it is
    OPEN and the status shown is "connected". *)
Theorem reconnect_after_close (st : State) :
  (status_dot (dom (step st Ws_close)) = "status-dot disconnected"
   /\ timeouts (step st Ws_close)
      = push (timeouts st)
          {| timeout_id := next_timer_id st;
             due := (clock st + 3000)%Z;
             action := connectWebSocket_cb |}
   /\ reconnect_scheduled st (step st Ws_close))
  /\ (status_dot (dom (step st Ws_error)) = "status-dot disconnected"
      /\ timeouts (step st Ws_error) = timeouts st)
  /\ (ws (state_after (run_callback connectWebSocket_cb st))
      = Some {| serial := sockets_created st; readyState := CONNECTING |}
      /\ dom (state_after (run_callback connectWebSocket_cb st)) = dom st)
  /\ (status_dot (dom (step st Ws_open)) = "status-dot connected"
      /\ ws (step st Ws_open)
         = option_map
             (fun w => {| serial := serial w; readyState := OPEN |}) (ws st))
  /\ (forall page t0 n,
        sockets_created (run (init page t0) (failed_attempts n)) = S n
        /\ ws (run (init page t0) (failed_attempts n))
           = Some {| serial := n; readyState := CONNECTING |}
        /\ clock (run (init page t0) (failed_attempts n))
           = (t0 + 3000 * Z.of_nat n)%Z).
Proof.
  split; [|split; [|split; [|split]]].
  - split; [reflexivity|]. split; [reflexivity|].
    eexists. split; [|split].
    + cbn. apply in_or_app. right. left. reflexivity.
    + reflexivity.
    + reflexivity.
  - split; reflexivity.
  - split; reflexivity.
  - split; reflexivity.
  - intros page t0 n.
    destruct (attempts_never_end page t0 n) as (H1 & H2 & H3 & _).
    repeat split; assumption.
Qed.

(* ------------------------------------------------------------------ *)
(** ** Timers                                                          *)
(* ------------------------------------------------------------------ *)

Lemma due_by_filter (horizon : Z) (q : Timeout -> bool) (l : list Timeout) :
  due_by horizon (filter q l) = filter q (due_by horizon l).
Proof.
  unfold due_by. induction l as [|t l IH]; [reflexivity|].
  cbn [filter]. destruct (q t) eqn:Eq, (due t <=? horizon)%Z eqn:Ed;
    cbn [filter]; rewrite ?Eq, ?Ed, IH; reflexivity.
Qed.

Lemma filter_drops (q : Timeout -> bool) (l : list Timeout) (t : Timeout) :
  In t l -> q t = false -> length (filter q l) < length l.
Proof.
  induction l as [|a l IH]; intros Hin Hq; [destruct Hin|].
  cbn [filter]. destruct Hin as [->|Hin].
  - rewrite Hq. pose proof (filter_length_le q l). cbn [length]. lia.
  - specialize (IH Hin Hq). destruct (q a); cbn [length]; lia.
Qed.

Lemma earliest_In (l : list Timeout) (t : Timeout) :
  earliest l = Some t -> In t l.
Proof.
  revert t; induction l as [|a l IH]; intros t H; [discriminate|].
  cbn [earliest] in H. destruct (earliest l) as [t'|].
  - destruct (due a <=? due t')%Z; injection H as <-;
      [left; reflexivity|right; apply IH; reflexivity].
  - injection H as <-. left; reflexivity.
Qed.

Lemma earliest_None (l : list Timeout) : earliest l = None -> l = [].
Proof.
  destruct l as [|a l]; [reflexivity|]. cbn [earliest].
  destruct (earliest l) as [t'|]; [destruct (due a <=? due t')%Z|];
    discriminate.
Qed.

(** No callback of the script registers a timeout. *)
Lemma callback_timeouts (cb : callback) (st : State) :
  exists q, timeouts (state_after (run_callback cb st)) = filter q (timeouts st).
Proof.
  assert (Hid : forall l : list Timeout, l = filter (fun _ => true) l).
  { induction l as [|a l IH]; [reflexivity|]. cbn [filter]. f_equal. exact IH. }
  destruct cb; js_unfold; cbn; try (eexists; apply Hid).
  destruct (isRecording st); cbn; [|eexists; apply Hid].
  destruct (recordingTimer st); cbn; eexists; [reflexivity|apply Hid].
Qed.

Lemma run_timers_complete (fuel : nat) :
  forall (horizon : Z) (st : State),
  length (due_by horizon (timeouts st)) <= fuel ->
  due_by horizon (timeouts (run_timers fuel horizon st)) = [].
Proof.
  induction fuel as [|fuel IH]; intros horizon st Hlen.
  - cbn [run_timers]. destruct (due_by horizon (timeouts st));
      [reflexivity|cbn in Hlen; lia].
  - cbn [run_timers].
    destruct (earliest (due_by horizon (timeouts st))) as [t|] eqn:E.
    + apply IH. apply earliest_In in E.
      match goal with
      | |- context [run_callback ?cb ?s] =>
          destruct (callback_timeouts cb s) as (q & ->)
      end.
      cbn [timeouts with_timeouts]. unfold without.
      rewrite !due_by_filter.
      pose proof (filter_length_le q
        (filter (fun t0 => negb (Nat.eqb (timeout_id t0) (timeout_id t)))
           (due_by horizon (timeouts st)))).
      assert (Hq : negb (Nat.eqb (timeout_id t) (timeout_id t)) = false)
        by (rewrite Nat.eqb_refl; reflexivity).
      pose proof (filter_drops
        (fun t0 => negb (Nat.eqb (timeout_id t0) (timeout_id t)))
        (due_by horizon (timeouts st)) t E Hq) as Hdrop.
      lia.
    + apply earliest_None, E.
Qed.

(** When [ms] milliseconds have passed, every timeout that was due in the
    meantime has fired: those still pending are due later. *)
Lemma elapse_fires_all_due (ms : Z) (st : State) (t : Timeout) :
  (0 <= ms)%Z ->
  In t (timeouts (elapse ms st)) -> (clock st + ms < due t)%Z.
Proof.
  intros Hms Hin. unfold elapse in Hin.
  destruct (Z.ltb_spec ms 0) as [Hneg|_]; [lia|].
  cbn [timeouts with_clock] in Hin.
  pose proof (run_timers_complete (length (timeouts st)) (clock st + ms) st
                (filter_length_le _ _)) as Hnone.
  destruct (Z.leb_spec (due t) (clock st + ms)) as [Hdue|Hlater]; [|exact Hlater].
  assert (Hin' : In t (due_by (clock st + ms)
                         (timeouts (run_timers (length (timeouts st))
                                      (clock st + ms) st)))).
  { apply filter_In. split; [exact Hin|]. apply Z.leb_le, Hdue. }
  rewrite Hnone in Hin'. destruct Hin'.
Qed.

(* ------------------------------------------------------------------ *)
(** ** Further properties of the script                                *)
(* ------------------------------------------------------------------ *)

(** *** The page follows the recording flag *)

Lemma callback_page_shows_flag (cb : callback) (st : State) :
  page_shows_flag st -> page_shows_flag (state_after (run_callback cb st)).
Proof.
  unfold page_shows_flag. intros H.
  destruct cb; js_unfold; cbn; try exact H.
  destruct (isRecording st) eqn:E; cbn; [|rewrite E; exact H].
  destruct (recordingTimer st); cbn; repeat split; auto.
Qed.

(** A click on the export button touches neither the page nor the
    recording variables. *)
Lemma export_click_frame (st : State) :
  dom (step st Click_downloadPdfBtn) = dom st
  /\ isRecording (step st Click_downloadPdfBtn) = isRecording st
  /\ recordingStartTime (step st Click_downloadPdfBtn) = recordingStartTime st
  /\ recordingData (step st Click_downloadPdfBtn) = recordingData st.
Proof.
  cbn [step]. js_unfold. cbn.
  destruct (downloadPdfBtn_disabled (dom st)); cbn; [repeat split|].
  destruct (Nat.eqb _ 0); repeat split.
Qed.

Lemma step_page_shows_flag (st : State) (e : event) :
  page_shows_flag st -> page_shows_flag (step st e).
Proof.
  unfold page_shows_flag. intros H.
  destruct e as [| | | | |[data|]|ms]; cbn [step]; try exact H.
  - js_unfold. cbn. destruct (isRecording st) eqn:E; cbn.
    + destruct (recordingTimer st); cbn; repeat split; auto.
    + repeat split; auto.
  - destruct (export_click_frame st) as (Hd & Hr & Hs & _).
    cbn [step] in Hd, Hr, Hs. rewrite Hd, Hr, Hs. exact H.
  - unfold dispatch, ws_onmessage, updateDashboard, updatePanels, JSON_parse,
      bind, ret, read, write.
    rewrite updateCharts_spec. cbn.
    destruct (isRecording st) eqn:E; cbn; rewrite ?E; exact H.
  - apply (elapse_invariant page_shows_flag); auto.
    intros s cb. apply callback_page_shows_flag.
Qed.

(** On a page that starts with the recording dot off and the button
    showing "start", after any events: the dot is on exactly while the
    flag is set, the button shows "stop" exactly while the flag is set,
    and once a recording has been started the export button is disabled
    exactly while the flag is set and the text says "recording" or
    "done" accordingly. *)
Theorem page_follows_recording_flag
  (page : Dom) (t0 : Z) (evs : list event) :
  recordingDot_active page = false ->
  startRecordingBtn page = StartFace ->
  page_shows_flag (run (init page t0) evs).
Proof.
  intros Hdot Hbtn. induction evs as [|e evs IH] using rev_ind.
  - unfold page_shows_flag. cbn. repeat split; auto; contradiction.
  - rewrite run_snoc. apply step_page_shows_flag, IH.
Qed.

Lemma page_follows_recording_flag_witness :
  page_shows_flag (run (init some_page 0) two_sessions).
Proof.
  apply (page_follows_recording_flag some_page 0 two_sessions); reflexivity.
Defined.

(** *** The connection indicator *)

Lemma callback_indicator (cb : callback) (st : State) :
  indicator (state_after (run_callback cb st)) = indicator st.
Proof.
  destruct cb; js_unfold; cbn; try reflexivity.
  destruct (isRecording st); cbn; [|reflexivity].
  destruct (recordingTimer st); reflexivity.
Qed.

Lemma step_indicator (st : State) (e : event) :
  indicator (step st e)
  = match link_report e with
    | Some true => ("status-dot connected", "연결됨")
    | Some false => ("status-dot disconnected", "연결 끊김")
    | None => indicator st
    end.
Proof.
  destruct e as [| | | | |[data|]|ms]; cbn [step link_report];
    try reflexivity.
  - js_unfold. cbn. destruct (isRecording st); cbn; [|reflexivity].
    destruct (recordingTimer st); reflexivity.
  - js_unfold. cbn. destruct (downloadPdfBtn_disabled (dom st)); cbn;
      [reflexivity|].
    destruct (Nat.eqb _ 0); reflexivity.
  - unfold dispatch, ws_onmessage, updateDashboard, updatePanels, JSON_parse,
      bind, ret, read, write.
    rewrite updateCharts_spec. cbn. destruct (isRecording st); reflexivity.
  - apply (elapse_invariant (fun s => indicator s = indicator st)); auto.
    intros s cb Hs. rewrite callback_indicator. exact Hs.
Qed.

Lemma last_link_report_snoc (evs : list event) (e : event) :
  last_link_report (evs ++ [e])
  = match link_report e with
    | Some r => Some r
    | None => last_link_report evs
    end.
Proof.
  induction evs as [|a evs IH]; cbn [app last_link_report].
  - destruct (link_report e); reflexivity.
  - rewrite IH. destruct (link_report e); [reflexivity|].
    destruct (last_link_report evs); reflexivity.
Qed.

(** The indicator always shows what the socket reported last: "connected"
    after an open, "disconnected" after a close or an error, and what the
    page showed at load before any report.  Nothing else ever changes it:
    it shows no third state, neither while a new socket is connecting nor
    after a message. *)
Theorem indicator_shows_last_report
  (page : Dom) (t0 : Z) (evs : list event) :
  indicator (run (init page t0) evs)
  = match last_link_report evs with
    | Some true => ("status-dot connected", "연결됨")
    | Some false => ("status-dot disconnected", "연결 끊김")
    | None => (status_dot page, status_text page)
    end.
Proof.
  induction evs as [|e evs IH] using rev_ind.
  - reflexivity.
  - rewrite run_snoc, step_indicator, last_link_report_snoc, IH.
    destruct (link_report e) as [[|]|]; reflexivity.
Qed.

(** *** The buffer between two starts *)

Lemma step_recordingData (st : State) (e : event) :
  is_start_click e = false ->
  recordingData (step st e)
  = recordingData st ++ (if isRecording st then accepted [e] else []).
Proof.
  intros He. assert (Hnil : forall b : bool,
    recordingData st = recordingData st ++ (if b then [] else [])).
  { intros []; rewrite app_nil_r; reflexivity. }
  destruct e as [| | | | |[data|]|ms]; cbn [step accepted flat_map app];
    try discriminate He; try apply Hnil.
  - js_unfold. cbn. destruct (downloadPdfBtn_disabled (dom st)); cbn;
      [apply Hnil|].
    destruct (Nat.eqb _ 0); apply Hnil.
  - unfold dispatch, ws_onmessage, updateDashboard, updatePanels, JSON_parse,
      bind, ret, read, write.
    rewrite updateCharts_spec. cbn.
    destruct (isRecording st); cbn; [reflexivity|].
    rewrite app_nil_r. reflexivity.
  - rewrite <- Hnil.
    apply (elapse_invariant (fun s => recordingData s = recordingData st));
      auto.
    intros s cb Hs. rewrite <- Hs.
    destruct cb; js_unfold; cbn; try reflexivity.
    destruct (isRecording s); cbn; [|reflexivity].
    destruct (recordingTimer s); reflexivity.
Qed.

Lemma step_keeps_stopped (st : State) (e : event) :
  is_start_click e = false ->
  isRecording (step st e) = true -> isRecording st = true.
Proof.
  intros He. destruct e as [| | | | |[data|]|ms]; cbn [step];
    try discriminate He; try (intros H; exact H).
  - js_unfold. cbn. destruct (downloadPdfBtn_disabled (dom st)); cbn;
      [auto|].
    destruct (Nat.eqb _ 0); auto.
  - unfold dispatch, ws_onmessage, updateDashboard, updatePanels, JSON_parse,
      bind, ret, read, write.
    rewrite updateCharts_spec. cbn.
    destruct (isRecording st) eqn:E; cbn; rewrite ?E; auto.
  - apply (elapse_invariant
             (fun s => isRecording s = true -> isRecording st = true)); auto.
    intros s cb Hs. destruct cb; js_unfold; cbn; auto.
    destruct (isRecording s) eqn:E; cbn; [|rewrite E; discriminate].
    destruct (recordingTimer s); cbn; discriminate.
Qed.

Lemma accepted_cons (e : event) (evs : list event) :
  accepted (e :: evs) = accepted [e] ++ accepted evs.
Proof. unfold accepted. cbn [flat_map]. rewrite app_nil_r. reflexivity. Qed.

(** If a recording is still running after events that contain no click
    on the start button, it was running all along, and its buffer has
    grown by exactly the snapshots delivered, in the order of arrival:
    none lost, none doubled, whatever else happened in between
    (malformed messages, socket errors and closes, timers). *)
Theorem running_session_buffers_every_snapshot
  (evs : list event) (st : State) :
  no_start_click evs = true ->
  isRecording (run st evs) = true ->
  isRecording st = true
  /\ recordingData (run st evs) = recordingData st ++ accepted evs.
Proof.
  revert st. induction evs as [|e evs IH]; intros st Hevs Hrec.
  - split; [exact Hrec|]. cbn. rewrite app_nil_r. reflexivity.
  - cbn in Hevs. apply andb_prop in Hevs. destruct Hevs as [He Hevs].
    apply negb_true_iff in He. cbn [run fold_left] in *.
    destruct (IH (step st e) Hevs Hrec) as [Hrec' Hbuf].
    pose proof (step_keeps_stopped st e He Hrec') as Hst.
    split; [exact Hst|].
    unfold run in Hbuf. rewrite Hbuf, step_recordingData by exact He.
    rewrite Hst, (accepted_cons e evs), <- app_assoc. reflexivity.
Qed.

Lemma running_session_buffers_every_snapshot_witness :
  isRecording (step (init some_page 0) Click_startRecordingBtn) = true
  /\ recordingData
       (run (step (init some_page 0) Click_startRecordingBtn)
          [Ws_message (Json bare); Ws_message NotJson; Ws_close;
           Elapse 3000; Ws_message (Json (cpu_only 10))])
     = recordingData (step (init some_page 0) Click_startRecordingBtn)
       ++ accepted [Ws_message (Json bare); Ws_message NotJson; Ws_close;
                    Elapse 3000; Ws_message (Json (cpu_only 10))].
Proof.
  apply (running_session_buffers_every_snapshot
           [Ws_message (Json bare); Ws_message NotJson; Ws_close;
            Elapse 3000; Ws_message (Json (cpu_only 10))]
           (step (init some_page 0) Click_startRecordingBtn));
    reflexivity.
Defined.

(** A stopped session takes nothing more. *)
Lemma stopped_session_keeps_buffer (evs : list event) (st : State) :
  no_start_click evs = true ->
  isRecording st = false ->
  recordingData (run st evs) = recordingData st.
Proof.
  revert st. induction evs as [|e evs IH]; intros st Hevs Hst; [reflexivity|].
  cbn in Hevs. apply andb_prop in Hevs. destruct Hevs as [He Hevs].
  apply negb_true_iff in He. cbn [run fold_left].
  change (fold_left step evs (step st e)) with (run (step st e) evs).
  rewrite IH; [|exact Hevs|].
  - rewrite step_recordingData, Hst, app_nil_r by exact He. reflexivity.
  - destruct (isRecording (step st e)) eqn:E; [|reflexivity].
    apply step_keeps_stopped in E; [congruence|exact He].
Qed.

(** Whether or not the recording is still running: without a click on
    the start button the buffer only grows at its end, by the snapshots
    delivered up to the stop; it is never reordered, shortened or
    cleared. *)
Theorem buffer_grows_by_a_prefix (evs : list event) (st : State) :
  no_start_click evs = true ->
  exists n : nat,
    recordingData (run st evs) = recordingData st ++ firstn n (accepted evs).
Proof.
  revert st. induction evs as [|e evs IH]; intros st Hevs.
  - exists 0. cbn. rewrite app_nil_r. reflexivity.
  - destruct (isRecording st) eqn:Hst.
    + cbn in Hevs. apply andb_prop in Hevs. destruct Hevs as [He Hevs].
      apply negb_true_iff in He. cbn [run fold_left].
      destruct (IH (step st e) Hevs) as [n Hn]. unfold run in Hn. rewrite Hn.
      rewrite step_recordingData, Hst by exact He.
      exists (length (accepted [e]) + n).
      rewrite (accepted_cons e evs), firstn_app_2, <- app_assoc. reflexivity.
    + exists 0. cbn [firstn]. rewrite app_nil_r.
      apply stopped_session_keeps_buffer; assumption.
Qed.

Lemma buffer_grows_by_a_prefix_witness :
  exists n : nat,
    recordingData (run recording_one [Ws_message (Json bare); Elapse 400000;
                                      Ws_message (Json bare)])
    = recordingData recording_one
      ++ firstn n (accepted [Ws_message (Json bare); Elapse 400000;
                             Ws_message (Json bare)]).
Proof.
  apply (buffer_grows_by_a_prefix
           [Ws_message (Json bare); Elapse 400000; Ws_message (Json bare)]
           recording_one).
  reflexivity.
Defined.

(** *** Statistics of a non-empty buffer *)






(** *** Saved reports *)

Lemma stats_of_finite (buffer : list Snapshot.t) :
  buffer <> [] -> finite_stats (stats_of buffer).
Proof.
  intros Hne. unfold finite_stats, finite.
  cbn [stats_of Stats.cpu Stats.memory Stats.network Series.avg Series.min
       Series.max NetStats.uploadAvg NetStats.downloadAvg].
  repeat split;
    first [ destruct (avg_is_mean CpuPercent buffer Hne) as (q & Hq & _);
            exists q; exact Hq
          | destruct (avg_is_mean MemoryPercent buffer Hne) as (q & Hq & _);
            exists q; exact Hq
          | destruct (avg_is_mean NetUpload buffer Hne) as (q & Hq & _);
            exists q; exact Hq
          | destruct (avg_is_mean NetDownload buffer Hne) as (q & Hq & _);
            exists q; exact Hq
          | destruct (min_is_minimum CpuPercent buffer Hne) as (q & Hq & _);
            exists q; exact Hq
          | destruct (min_is_minimum MemoryPercent buffer Hne) as (q & Hq & _);
            exists q; exact Hq
          | destruct (max_is_maximum CpuPercent buffer Hne) as (q & Hq & _);
            exists q; exact Hq
          | destruct (max_is_maximum MemoryPercent buffer Hne) as (q & Hq & _);
            exists q; exact Hq ].
Qed.

Lemma callback_saved (cb : callback) (st : State) :
  saved (state_after (run_callback cb st)) = saved st.
Proof.
  destruct cb; js_unfold; cbn; try reflexivity.
  destruct (isRecording st); cbn; [|reflexivity].
  destruct (recordingTimer st); reflexivity.
Qed.

Lemma step_export_click (st : State) :
  step st Click_downloadPdfBtn
  = if downloadPdfBtn_disabled (dom st) then st
    else state_after (downloadPDF st).
Proof.
  cbn [step dispatch]. unfold bind, read.
  destruct (downloadPdfBtn_disabled (dom st)); reflexivity.
Qed.

(** An event saves at most one file, the report of a non-empty buffer. *)
Lemma step_saved (st : State) (e : event) :
  saved (step st e) = saved st
  \/ (recordingData st <> []
      /\ saved (step st e) = push (saved st) (report_of (recordingData st))).
Proof.
  destruct e as [| | | | |[data|]|ms]; try (left; reflexivity).
  - left. cbn [step]. js_unfold. cbn. destruct (isRecording st); cbn; [|reflexivity].
    destruct (recordingTimer st); reflexivity.
  - rewrite step_export_click.
    destruct (downloadPdfBtn_disabled (dom st)); [left; reflexivity|].
    destruct (recordingData st) as [|d rest] eqn:E.
    + left. rewrite downloadPDF_empty by exact E. reflexivity.
    + right. split; [discriminate|].
      rewrite downloadPDF_nonempty by (rewrite E; discriminate).
      rewrite E. reflexivity.
  - left. cbn [step].
    unfold dispatch, ws_onmessage, updateDashboard, updatePanels,
      JSON_parse, bind, ret, read, write.
    rewrite updateCharts_spec. cbn. destruct (isRecording st); reflexivity.
  - left. cbn [step].
    apply (elapse_invariant (fun s => saved s = saved st)); auto.
    intros s cb Hs. rewrite callback_saved. exact Hs.
Qed.

(** Every file the page has saved since it was loaded is the report of a
    non-empty buffer: its duration line counts at least one snapshot and
    none of its statistics is [NaN] or infinite. *)
Theorem saved_reports_are_sound
  (page : Dom) (t0 : Z) (evs : list event) (r : Report) :
  In r (saved (run (init page t0) evs)) ->
  0 < duration_seconds r
  /\ finite_stats (statistics r)
  /\ exists buffer, buffer <> [] /\ r = report_of buffer.
Proof.
  revert r. induction evs as [|e evs IH] using rev_ind; intros r Hin.
  - destruct Hin.
  - rewrite run_snoc in Hin.
    destruct (step_saved (run (init page t0) evs) e) as [Hsame|[Hne Hpush]].
    + rewrite Hsame in Hin. apply IH, Hin.
    + rewrite Hpush in Hin. apply in_app_or in Hin.
      destruct Hin as [Hin|[<-|[]]]; [apply IH, Hin|].
      split; [|split].
      * destruct (recordingData (run (init page t0) evs));
          [contradiction|cbn; lia].
      * apply stats_of_finite, Hne.
      * eexists. split; [exact Hne|reflexivity].
Qed.

Lemma saved_reports_are_sound_witness :
  0 < duration_seconds (report_of [cpu_only 10])
  /\ finite_stats (statistics (report_of [cpu_only 10]))
  /\ exists buffer, buffer <> [] /\ report_of [cpu_only 10] = report_of buffer.
Proof.
  apply (saved_reports_are_sound some_page 0
           [Click_startRecordingBtn; Ws_message (Json (cpu_only 10));
            Click_startRecordingBtn; Click_downloadPdfBtn]).
  vm_compute. left. reflexivity.
Defined.

(** *** Timers *)

Lemma run_timers_fire (fuel : nat) (horizon : Z) (st : State) :
  run_timers (S fuel) horizon st
  = match earliest (due_by horizon (timeouts st)) with
    | None => st
    | Some t => run_timers fuel horizon (fire t st)
    end.
Proof. reflexivity. Qed.

(** What every firing preserves, [run_timers] preserves. *)
Lemma run_timers_preserves (P : State -> Prop) :
  (forall st t, P st -> In t (timeouts st) -> P (fire t st)) ->
  forall fuel horizon st, P st -> P (run_timers fuel horizon st).
Proof.
  intros Hfire. induction fuel as [|fuel IH]; intros horizon st HP;
    [exact HP|].
  rewrite run_timers_fire.
  destruct (earliest (due_by horizon (timeouts st))) as [t|] eqn:E;
    [|exact HP].
  apply IH, Hfire; [exact HP|].
  apply earliest_In in E. apply filter_In in E. apply E.
Qed.

Lemma In_without (id : nat) (ts : list Timeout) (x : Timeout) :
  In x (without id ts) <-> In x ts /\ timeout_id x <> id.
Proof.
  unfold without. rewrite filter_In, negb_true_iff, Nat.eqb_neq. reflexivity.
Qed.

Lemma NoDup_ids_filter (q : Timeout -> bool) (ts : list Timeout) :
  NoDup (map timeout_id ts) -> NoDup (map timeout_id (filter q ts)).
Proof.
  induction ts as [|a ts IH]; intros H; [constructor|].
  cbn [map] in H. inversion H as [|? ? Hnot Hrest]; subst.
  cbn [filter]. destruct (q a); [|apply IH, Hrest].
  cbn [map]. constructor; [|apply IH, Hrest].
  intros Hin. apply Hnot. apply in_map_iff in Hin.
  destruct Hin as (x & Hx & Hin). apply filter_In in Hin.
  apply in_map_iff. exists x. split; [exact Hx|apply Hin].
Qed.

Lemma NoDup_ids_same (ts : list Timeout) (a b : Timeout) :
  NoDup (map timeout_id ts) -> In a ts -> In b ts ->
  timeout_id a = timeout_id b -> a = b.
Proof.
  induction ts as [|c ts IH]; intros H Ha Hb Hid; [destruct Ha|].
  cbn [map] in H. inversion H as [|? ? Hnot Hrest]; subst.
  destruct Ha as [->|Ha], Hb as [->|Hb].
  - reflexivity.
  - exfalso. apply Hnot. rewrite Hid. apply in_map, Hb.
  - exfalso. apply Hnot. rewrite <- Hid. apply in_map, Ha.
  - apply IH; assumption.
Qed.

Lemma ids_of_filter (q : Timeout -> bool) (ts : list Timeout) (id : nat) :
  In id (map timeout_id (filter q ts)) -> In id (map timeout_id ts).
Proof.
  intros H. apply in_map_iff in H. destruct H as (x & Hx & Hin).
  apply filter_In in Hin. apply in_map_iff. exists x. split; [exact Hx|apply Hin].
Qed.

Lemma filter_all (ts : list Timeout) : filter (fun _ => true) ts = ts.
Proof. induction ts as [|a ts IH]; [reflexivity|]. cbn. rewrite IH. reflexivity. Qed.

(** Cancelling timeouts keeps the ids well formed. *)
Lemma ids_filtered (q : Timeout -> bool) (st st' : State) :
  ids_well_formed st ->
  timeouts st' = filter q (timeouts st) ->
  next_timer_id st' = next_timer_id st ->
  recordingTimer st' = recordingTimer st ->
  ids_well_formed st'.
Proof.
  intros (Hfresh & Hnodup & Htimer) Hts Hnext Hrt.
  unfold ids_well_formed, timeout_ids. rewrite Hts, Hnext, Hrt.
  split; [|split].
  - intros t Ht. apply filter_In in Ht. apply Hfresh, Ht.
  - apply NoDup_ids_filter, Hnodup.
  - intros id Hid. destruct (Htimer id Hid) as [Hlt Hnot].
    split; [exact Hlt|]. intros Hin. apply Hnot, (ids_of_filter q), Hin.
Qed.

(** Registering a timeout under a fresh id keeps the ids well formed. *)
Lemma ids_pushed (t : Timeout) (st st' : State) :
  ids_well_formed st ->
  timeouts st' = push (timeouts st) t ->
  next_timer_id st <= timeout_id t < next_timer_id st' ->
  (forall id, recordingTimer st' = Some id ->
     id < next_timer_id st' /\ id <> timeout_id t
     /\ (recordingTimer st = Some id \/ next_timer_id st <= id)) ->
  ids_well_formed st'.
Proof.
  intros (Hfresh & Hnodup & Htimer) Hts Hid Hrt.
  unfold ids_well_formed, timeout_ids, push in *. rewrite Hts.
  split; [|split].
  - intros x Hx. apply in_app_or in Hx. destruct Hx as [Hx|[<-|[]]]; [|lia].
    specialize (Hfresh x Hx). lia.
  - rewrite map_app. cbn [map].
    apply NoDup_app; [exact Hnodup|repeat constructor; intros []|].
    intros i Hi [<-|[]]. apply in_map_iff in Hi.
    destruct Hi as (x & Hx & Hin). specialize (Hfresh x Hin). lia.
  - intros id Hsome. destruct (Hrt id Hsome) as (Hlt & Hne & Hold).
    split; [exact Hlt|]. rewrite map_app. cbn [map]. intros Hin.
    apply in_app_or in Hin. destruct Hin as [Hin|[Heq|[]]]; [|congruence].
    destruct Hold as [Hold|Hge].
    + apply (Htimer id Hold), Hin.
    + apply in_map_iff in Hin. destruct Hin as (x & Hx & Hin).
      specialize (Hfresh x Hin). lia.
Qed.

(** *** What each event does to the timers *)

Lemma quiet_step (st : State) (e : event) :
  is_quiet e = true -> timer_view (step st e) = timer_view st.
Proof.
  intros He. destruct e as [| | | | |[data|]|ms]; try discriminate He;
    try reflexivity.
  - rewrite step_export_click.
    destruct (downloadPdfBtn_disabled (dom st)); [reflexivity|].
    destruct (recordingData st) as [|d rest] eqn:E.
    + rewrite downloadPDF_empty by exact E. reflexivity.
    + rewrite downloadPDF_nonempty by (rewrite E; discriminate). reflexivity.
  - cbn [step].
    unfold dispatch, ws_onmessage, updateDashboard, updatePanels, JSON_parse,
      bind, ret, read, write.
    rewrite updateCharts_spec. cbn. destruct (isRecording st); reflexivity.
Qed.

Lemma quiet_step_fields (st : State) (e : event) :
  is_quiet e = true ->
  timeouts (step st e) = timeouts st
  /\ next_timer_id (step st e) = next_timer_id st
  /\ recordingTimer (step st e) = recordingTimer st
  /\ isRecording (step st e) = isRecording st
  /\ recordingStartTime (step st e) = recordingStartTime st
  /\ clock (step st e) = clock st
  /\ intervals (step st e) = intervals st
  /\ sockets_created (step st e) = sockets_created st.
Proof.
  intros He. pose proof (quiet_step st e He) as Hview.
  unfold timer_view in Hview.
  injection Hview as H1 H2 H3 H4 H5 H6 H7 H8. repeat split; assumption.
Qed.

Lemma stops_effect (st st' : State) :
  stops st st' ->
  timeouts st' = filter (spared (recordingTimer st)) (timeouts st)
  /\ next_timer_id st' = next_timer_id st
  /\ recordingTimer st' = recordingTimer st
  /\ isRecording st' = false
  /\ recordingStartTime st' = recordingStartTime st
  /\ clock st' = clock st
  /\ sockets_created st' = sockets_created st.
Proof.
  intros [Hrec|Hrec]; cbn [step]; js_unfold; cbn; rewrite Hrec; cbn;
    destruct (recordingTimer st) eqn:E; cbn; rewrite ?E, ?filter_all;
    repeat split.
Qed.

Lemma start_effect (st : State) :
  isRecording st = false ->
  timeouts (step st Click_startRecordingBtn)
  = push (timeouts st)
      {| timeout_id := S (next_timer_id st);
         due := (clock st + RECORDING_DURATION)%Z;
         action := autoStop_cb |}
  /\ next_timer_id (step st Click_startRecordingBtn) = S (S (next_timer_id st))
  /\ recordingTimer (step st Click_startRecordingBtn) = Some (next_timer_id st)
  /\ isRecording (step st Click_startRecordingBtn) = true
  /\ recordingStartTime (step st Click_startRecordingBtn) = Some (clock st)
  /\ clock (step st Click_startRecordingBtn) = clock st
  /\ recordingData (step st Click_startRecordingBtn) = []
  /\ sockets_created (step st Click_startRecordingBtn) = sockets_created st.
Proof.
  intros Hrec. cbn [step]. js_unfold. cbn. rewrite Hrec. cbn. repeat split.
Qed.

Lemma close_effect (st : State) :
  timeouts (step st Ws_close)
  = push (timeouts st)
      {| timeout_id := next_timer_id st;
         due := (clock st + 3000)%Z;
         action := connectWebSocket_cb |}
  /\ next_timer_id (step st Ws_close) = S (next_timer_id st)
  /\ recordingTimer (step st Ws_close) = recordingTimer st
  /\ isRecording (step st Ws_close) = isRecording st
  /\ recordingStartTime (step st Ws_close) = recordingStartTime st
  /\ clock (step st Ws_close) = clock st
  /\ sockets_created (step st Ws_close) = sockets_created st.
Proof. repeat split. Qed.

(** A firing of the deadline callback during a recording stops it; any
    other firing leaves the session alone. *)
Lemma fire_effect (t : Timeout) (st : State) :
  next_timer_id (fire t st) = next_timer_id st
  /\ recordingTimer (fire t st) = recordingTimer st
  /\ recordingStartTime (fire t st) = recordingStartTime st
  /\ ((action t = autoStop_cb /\ isRecording st = true
       /\ isRecording (fire t st) = false
       /\ timeouts (fire t st)
          = filter (spared (recordingTimer st))
              (without (timeout_id t) (timeouts st)))
      \/ ((action t <> autoStop_cb \/ isRecording st = false)
          /\ isRecording (fire t st) = isRecording st
          /\ timeouts (fire t st) = without (timeout_id t) (timeouts st))).
Proof.
  unfold fire. destruct (action t) eqn:Hact; js_unfold; cbn;
    try (repeat split; right; repeat split; left; discriminate).
  destruct (isRecording st) eqn:Hrec; cbn.
  - destruct (recordingTimer st) eqn:E; cbn; rewrite ?E, ?filter_all;
      repeat split; left; repeat split.
  - rewrite Hrec. repeat split. right. repeat split. right. reflexivity.
Qed.

(** *** Well-formed timers in every reachable state *)

Lemma fire_well_formed (t : Timeout) (st : State) :
  timers_well_formed st -> In t (timeouts st) ->
  timers_well_formed (fire t st).
Proof.
  intros [Hids Hown] Hin.
  destruct (fire_effect t st) as (Hnext & Hrt & Hstart & Hcase).
  assert (Hids1 : ids_well_formed
            (with_timeouts (without (timeout_id t) (timeouts st)) st)).
  { apply (ids_filtered
             (fun x => negb (Nat.eqb (timeout_id x) (timeout_id t))) st);
      [exact Hids|reflexivity..]. }
  destruct Hcase as [(Hact & Hrec & Hrec' & Hts)|(Hother & Hrec' & Hts)].
  - split.
    + apply (ids_filtered (spared (recordingTimer st))
               (with_timeouts (without (timeout_id t) (timeouts st)) st));
        [exact Hids1|exact Hts|exact Hnext|exact Hrt].
    + intros H. congruence.
  - split.
    + apply (ids_filtered (fun _ => true)
               (with_timeouts (without (timeout_id t) (timeouts st)) st));
        [exact Hids1|rewrite filter_all; exact Hts|exact Hnext|exact Hrt].
    + intros H. rewrite Hrec' in H.
      destruct (Hown H) as (s & id & Hs & Hpending).
      exists s, id. split; [rewrite Hstart; exact Hs|].
      rewrite Hts. apply In_without. split; [exact Hpending|].
      intros Heq. destruct Hids as (_ & Hnodup & _).
      pose proof (NoDup_ids_same _ _ _ Hnodup Hpending Hin Heq) as Hsame.
      destruct Hother as [Hact|Hstopped]; [|congruence].
      apply Hact. rewrite <- Hsame. reflexivity.
Qed.

Lemma same_view_well_formed (st st' : State) :
  timer_view st' = timer_view st ->
  timers_well_formed st -> timers_well_formed st'.
Proof.
  unfold timer_view. intros Hview H. injection Hview as Hts Hnext Hrt Hrec Hs _ _ _.
  unfold timers_well_formed, ids_well_formed, own_deadline_pending,
    timeout_ids in *.
  rewrite Hts, Hnext, Hrt, Hrec, Hs. exact H.
Qed.

Lemma step_well_formed (st : State) (e : event) :
  timers_well_formed st -> timers_well_formed (step st e).
Proof.
  intros Hwf. pose proof Hwf as [Hids Hown].
  destruct e as [| | | | |payload|ms];
    try (apply (same_view_well_formed st); [apply quiet_step; reflexivity|exact Hwf]).
  - (* click on the record button *)
    destruct (isRecording st) eqn:Hrec.
    + destruct (stops_effect st _ (stops_by_user st Hrec))
        as (Hts & Hnext & Hrt & Hrec' & _).
      split.
      * apply (ids_filtered (spared (recordingTimer st)) st); assumption.
      * intros H. congruence.
    + destruct (start_effect st Hrec)
        as (Hts & Hnext & Hrt & Hrec' & Hstart & _).
      split.
      * apply (ids_pushed _ st _ Hids Hts); cbn [timeout_id].
        -- rewrite Hnext. lia.
        -- intros id Hid. rewrite Hrt in Hid. injection Hid as <-.
           rewrite Hnext. repeat split; lia.
      * intros _. exists (clock st), (S (next_timer_id st)).
        split; [exact Hstart|]. rewrite Hts. apply in_or_app. right. left.
        reflexivity.
  - (* close *)
    destruct (close_effect st) as (Hts & Hnext & Hrt & Hrec' & Hstart & _).
    split.
    + apply (ids_pushed _ st _ Hids Hts); cbn [timeout_id].
      * rewrite Hnext. lia.
      * intros id Hid. rewrite Hrt in Hid.
        destruct Hids as (_ & _ & Htimer). destruct (Htimer id Hid) as [Hlt _].
        rewrite Hnext. repeat split; try lia. left. exact Hid.
    + intros H. rewrite Hrec' in H. destruct (Hown H) as (s & id & Hs & Hin).
      exists s, id. split; [rewrite Hstart; exact Hs|].
      rewrite Hts. apply in_or_app. left. exact Hin.
  - (* time passes *)
    cbn [step]. unfold elapse. destruct (ms <? 0)%Z; [exact Hwf|].
    assert (H : timers_well_formed
                  (run_timers (length (timeouts st)) (clock st + ms) st)).
    { apply run_timers_preserves; [|exact Hwf].
      intros s t. apply fire_well_formed. }
    exact H.
Qed.

Lemma run_well_formed (page : Dom) (t0 : Z) (evs : list event) :
  timers_well_formed (run (init page t0) evs).
Proof.
  induction evs as [|e evs IH] using rev_ind.
  - split; [split; [|split]|].
    + intros t [].
    + constructor.
    + intros id H. discriminate H.
    + intros H. discriminate H.
  - rewrite run_snoc. apply step_well_formed, IH.
Qed.

(** *** A recording never lasts longer than its duration *)

Lemma run_timers_start_time (fuel : nat) (horizon : Z) (st : State) :
  recordingStartTime (run_timers fuel horizon st) = recordingStartTime st.
Proof.
  apply (run_timers_preserves
           (fun s => recordingStartTime s = recordingStartTime st));
    [|reflexivity].
  intros s t Hs _. destruct (fire_effect t s) as (_ & _ & Hstart & _).
  rewrite Hstart. exact Hs.
Qed.

Lemma step_timeouts_ahead (st : State) (e : event) :
  timeouts_ahead st -> timeouts_ahead (step st e).
Proof.
  unfold timeouts_ahead. intros H.
  destruct e as [| | | | |payload|ms];
    try (match goal with
         | |- context [step st ?e] =>
             destruct (quiet_step_fields st e eq_refl)
               as (Hts & _ & _ & _ & _ & Hclock & _)
         end;
         rewrite Hts, Hclock; exact H).
  - destruct (isRecording st) eqn:Hrec.
    + destruct (stops_effect st _ (stops_by_user st Hrec))
        as (Hts & _ & _ & _ & _ & Hclock & _).
      rewrite Hts, Hclock. intros t Ht. apply filter_In in Ht. apply H, Ht.
    + destruct (start_effect st Hrec) as (Hts & _ & _ & _ & _ & Hclock & _).
      rewrite Hts, Hclock. intros t Ht. apply in_app_or in Ht.
      destruct Ht as [Ht|[<-|[]]]; [apply H, Ht|].
      cbn [due]. unfold RECORDING_DURATION. lia.
  - destruct (close_effect st) as (Hts & _ & _ & _ & _ & Hclock & _).
    rewrite Hts, Hclock. intros t Ht. apply in_app_or in Ht.
    destruct Ht as [Ht|[<-|[]]]; [apply H, Ht|]. cbn [due]. lia.
  - cbn [step]. intros t Ht. destruct (Z.ltb_spec ms 0) as [Hneg|Hpos].
    + unfold elapse in *. apply Z.ltb_lt in Hneg. rewrite Hneg in *.
      apply H, Ht.
    + pose proof (elapse_fires_all_due ms st t Hpos Ht) as Hdue.
      unfold elapse. apply Z.ltb_ge in Hpos. rewrite Hpos.
      cbn [clock with_clock]. exact Hdue.
Qed.

Lemma step_started_in_the_past (st : State) (e : event) :
  started_in_the_past st -> started_in_the_past (step st e).
Proof.
  unfold started_in_the_past. intros H.
  destruct e as [| | | | |payload|ms];
    try (match goal with
         | |- context [step st ?e] =>
             destruct (quiet_step_fields st e eq_refl)
               as (_ & _ & _ & _ & Hstart & Hclock & _)
         end;
         rewrite Hstart, Hclock; exact H).
  - destruct (isRecording st) eqn:Hrec.
    + destruct (stops_effect st _ (stops_by_user st Hrec))
        as (_ & _ & _ & _ & Hstart & Hclock & _).
      rewrite Hstart, Hclock. exact H.
    + destruct (start_effect st Hrec) as (_ & _ & _ & _ & Hstart & Hclock & _).
      rewrite Hstart, Hclock. intros s Hs. injection Hs as <-. lia.
  - destruct (close_effect st) as (_ & _ & _ & _ & Hstart & Hclock & _).
    rewrite Hstart, Hclock. exact H.
  - cbn [step]. unfold elapse. destruct (Z.ltb_spec ms 0) as [Hneg|Hpos];
      [exact H|].
    cbn [recordingStartTime clock with_clock].
    rewrite run_timers_start_time. intros s Hs. specialize (H s Hs). lia.
Qed.

Lemma run_clock_invariants (page : Dom) (t0 : Z) (evs : list event) :
  timeouts_ahead (run (init page t0) evs)
  /\ started_in_the_past (run (init page t0) evs).
Proof.
  induction evs as [|e evs [IH1 IH2]] using rev_ind.
  - split; [intros t []|intros s Hs; discriminate Hs].
  - rewrite run_snoc. split;
      [apply step_timeouts_ahead, IH1|apply step_started_in_the_past, IH2].
Qed.

(** In every state reached from page load in which a recording is
    running, the time elapsed since its start is at least 0 and strictly
    less than [RECORDING_DURATION]: the deadline callback has always been
    run by the time the five minutes are over. *)
Theorem recording_never_outlasts_duration
  (page : Dom) (t0 : Z) (evs : list event) :
  isRecording (run (init page t0) evs) = true ->
  exists s : Z,
    recordingStartTime (run (init page t0) evs) = Some s
    /\ (0 <= clock (run (init page t0) evs) - s < RECORDING_DURATION)%Z.
Proof.
  intros Hrec.
  destruct (run_clock_invariants page t0 evs) as [Hahead Hpast].
  destruct (run_well_formed page t0 evs) as [_ Hown].
  destruct (Hown Hrec) as (s & id & Hs & Hpending).
  exists s. split; [exact Hs|].
  specialize (Hahead _ Hpending). specialize (Hpast s Hs).
  cbn [due] in Hahead. lia.
Qed.

Lemma recording_never_outlasts_duration_witness :
  exists s : Z,
    recordingStartTime (run (init some_page 0) two_sessions) = Some s
    /\ (0 <= clock (run (init some_page 0) two_sessions) - s
        < RECORDING_DURATION)%Z.
Proof.
  apply (recording_never_outlasts_duration some_page 0 two_sessions).
  reflexivity.
Defined.

(** *** A stop cancels no timeout *)

Lemma filter_spared_all (handle : option nat) (ts : list Timeout) :
  (forall id, handle = Some id -> ~ In id (map timeout_id ts)) ->
  filter (spared handle) ts = ts.
Proof.
  intros H. destruct handle as [id|]; [|apply filter_all].
  specialize (H id eq_refl). induction ts as [|a ts IH]; [reflexivity|].
  cbn [filter spared]. cbn [map] in H.
  destruct (Nat.eqb_spec (timeout_id a) id) as [Heq|Hne].
  - exfalso. apply H. left. exact Heq.
  - cbn [negb]. f_equal. apply IH. intros Hin. apply H. right. exact Hin.
Qed.



(** *** The intervals *)

Lemma stops_intervals (st st' : State) :
  stops st st' ->
  intervals st' = filter (spared_interval (recordingTimer st)) (intervals st).
Proof.
  assert (Hall : forall l : list (nat * callback),
            filter (fun _ => true) l = l).
  { induction l as [|a l IH]; [reflexivity|]. cbn. rewrite IH. reflexivity. }
  intros [Hrec|Hrec]; cbn [step]; js_unfold; cbn; rewrite Hrec; cbn;
    destruct (recordingTimer st) eqn:E; cbn; rewrite ?Hall; reflexivity.
Qed.

Lemma start_intervals (st : State) :
  isRecording st = false ->
  intervals (step st Click_startRecordingBtn)
  = push (intervals st) (next_timer_id st, updateRecordingTime_cb).
Proof.
  intros Hrec. cbn [step]. js_unfold. cbn. rewrite Hrec. reflexivity.
Qed.

Lemma fire_intervals (t : Timeout) (st : State) :
  (action t = autoStop_cb /\ isRecording st = true
   /\ intervals (fire t st)
      = filter (spared_interval (recordingTimer st)) (intervals st))
  \/ ((action t <> autoStop_cb \/ isRecording st = false)
      /\ intervals (fire t st) = intervals st).
Proof.
  assert (Hall : forall l : list (nat * callback),
            filter (fun _ => true) l = l).
  { induction l as [|a l IH]; [reflexivity|]. cbn. rewrite IH. reflexivity. }
  unfold fire. destruct (action t) eqn:Hact; js_unfold; cbn;
    try (right; split; [left; discriminate|reflexivity]).
  destruct (isRecording st) eqn:Hrec; cbn.
  - left. destruct (recordingTimer st) eqn:E; cbn; rewrite ?Hall;
      repeat split.
  - right. split; [right; reflexivity|reflexivity].
Qed.

(** Stopping a tidy recording leaves the page clock alone. *)
Lemma tidy_after_stop (st : State) :
  intervals_tidy st -> isRecording st = true ->
  filter (spared_interval (recordingTimer st)) (intervals st)
  = [(1, updateTime_cb)].
Proof.
  intros (_ & _ & Hrun) Hrec. destruct (Hrun Hrec) as (id & Hid & Hlt & Hivs).
  rewrite Hid, Hivs. cbn [filter spared_interval fst].
  rewrite Nat.eqb_refl.
  destruct (Nat.eqb_spec 1 id) as [Heq|Hne]; [lia|reflexivity].
Qed.

Lemma fire_tidy (t : Timeout) (st : State) :
  intervals_tidy st -> intervals_tidy (fire t st).
Proof.
  intros Htidy. pose proof Htidy as (Hnext & Hidle & Hrun).
  destruct (fire_effect t st) as (Hn & Hrt & _ & Hcase).
  unfold intervals_tidy. rewrite Hn, Hrt.
  destruct (fire_intervals t st) as [(Hact & Hrec & Hivs)|(Hother & Hivs)].
  - destruct Hcase as [(_ & _ & Hrec' & _)|([Hne|Hstopped] & _)];
      [|contradiction|congruence].
    rewrite Hrec', Hivs, (tidy_after_stop st Htidy Hrec).
    split; [exact Hnext|]. split; [reflexivity|discriminate].
  - destruct Hcase as [(Hact & Hrec & _)|(_ & Hrec' & _)].
    + destruct Hother as [Hne|Hstopped]; [contradiction|congruence].
    + rewrite Hrec', Hivs. exact Htidy.
Qed.

Lemma step_tidy (st : State) (e : event) :
  intervals_tidy st -> intervals_tidy (step st e).
Proof.
  intros Htidy. pose proof Htidy as (Hnext & Hidle & Hrun).
  destruct e as [| | | | |payload|ms];
    try (match goal with
         | |- context [step st ?e] =>
             destruct (quiet_step_fields st e eq_refl)
               as (_ & Hn & Hrt & Hrec & _ & _ & Hivs & _)
         end;
         unfold intervals_tidy; rewrite Hn, Hrt, Hrec, Hivs; exact Htidy).
  - destruct (isRecording st) eqn:Hrec.
    + pose proof (stops_by_user st Hrec) as Hstop.
      destruct (stops_effect _ _ Hstop) as (_ & Hn & Hrt & Hrec' & _).
      unfold intervals_tidy.
      rewrite Hn, Hrt, Hrec', (stops_intervals _ _ Hstop).
      rewrite (tidy_after_stop st Htidy Hrec).
      split; [exact Hnext|]. split; [reflexivity|discriminate].
    + destruct (start_effect st Hrec) as (_ & Hn & Hrt & Hrec' & _).
      unfold intervals_tidy.
      rewrite Hn, Hrt, Hrec', (start_intervals st Hrec), (Hidle eq_refl).
      split; [lia|]. split; [discriminate|]. intros _.
      exists (next_timer_id st). repeat split. lia.
  - destruct (close_effect st) as (_ & Hn & Hrt & Hrec' & _).
    unfold intervals_tidy. rewrite Hn, Hrt, Hrec'.
    change (intervals (step st Ws_close)) with (intervals st).
    split; [lia|]. split; assumption.
  - cbn [step]. unfold elapse. destruct (ms <? 0)%Z; [exact Htidy|].
    assert (H : intervals_tidy
                  (run_timers (length (timeouts st)) (clock st + ms) st)).
    { apply run_timers_preserves; [|exact Htidy].
      intros s t Hs _. apply fire_tidy, Hs. }
    exact H.
Qed.

(** In every state reached from page load, the running intervals are
    the page clock and, exactly while a recording runs, one recording
    clock, whose id is the one kept in [recordingTimer]: no interval of
    an earlier session is left running. *)
Theorem no_interval_leaks (page : Dom) (t0 : Z) (evs : list event) :
  intervals_tidy (run (init page t0) evs).
Proof.
  induction evs as [|e evs IH] using rev_ind.
  - unfold intervals_tidy. cbn. split; [lia|].
    split; [reflexivity|discriminate].
  - rewrite run_snoc. apply step_tidy, IH.
Qed.

(** *** One reconnection per close *)

Lemma fire_sockets (t : Timeout) (st : State) :
  sockets_created (fire t st)
  = sockets_created st + (if is_reconnect t then 1 else 0).
Proof.
  unfold fire, is_reconnect. destruct (action t); js_unfold; cbn;
    try lia.
  destruct (isRecording st); cbn; [|lia].
  destruct (recordingTimer st); cbn; lia.
Qed.

Lemma fire_timeouts (t : Timeout) (st : State) :
  timers_well_formed st ->
  timeouts (fire t st) = without (timeout_id t) (timeouts st).
Proof.
  intros [(_ & _ & Htimer) _].
  destruct (fire_effect t st) as (_ & _ & _ & [(_ & _ & _ & Hts)|(_ & _ & Hts)]);
    [|exact Hts].
  rewrite Hts. apply filter_spared_all. intros id Hid Hin.
  apply (Htimer id Hid). unfold timeout_ids.
  apply (ids_of_filter _ _ _ Hin).
Qed.

(** Removing the timeout of a given id removes that timeout alone. *)
Lemma count_without (p : Timeout -> bool) (ts : list Timeout) (t : Timeout) :
  NoDup (map timeout_id ts) -> In t ts ->
  length (filter p (without (timeout_id t) ts)) + (if p t then 1 else 0)
  = length (filter p ts).
Proof.
  induction ts as [|a ts IH]; intros Hnodup Hin; [destruct Hin|].
  cbn [map] in Hnodup. inversion Hnodup as [|? ? Hnot Hrest]; subst.
  unfold without in *. cbn [filter].
  destruct Hin as [->|Hin].
  - rewrite Nat.eqb_refl. cbn [negb].
    replace (filter (fun x => negb (Nat.eqb (timeout_id x) (timeout_id t))) ts)
      with ts.
    + destruct (p t); cbn [length]; lia.
    + symmetry. apply (filter_spared_all (Some (timeout_id t))).
      intros id Hid. injection Hid as <-. exact Hnot.
  - destruct (Nat.eqb_spec (timeout_id a) (timeout_id t)) as [Heq|Hne].
    + exfalso. apply Hnot. rewrite Heq. apply in_map, Hin.
    + cbn [negb filter]. specialize (IH Hrest Hin).
      destruct (p a); cbn [length]; lia.
Qed.

Lemma fire_balance (t : Timeout) (st : State) :
  timers_well_formed st -> In t (timeouts st) ->
  sockets_created (fire t st) + pending_reconnects (fire t st)
  = sockets_created st + pending_reconnects st.
Proof.
  intros Hwf Hin. unfold pending_reconnects.
  rewrite fire_sockets, (fire_timeouts t st Hwf).
  destruct Hwf as [(_ & Hnodup & _) _].
  pose proof (count_without is_reconnect _ t Hnodup Hin). lia.
Qed.

Lemma step_balance (st : State) (e : event) :
  timers_well_formed st ->
  sockets_created (step st e) + pending_reconnects (step st e)
  = sockets_created st + pending_reconnects st
    + (if is_close e then 1 else 0).
Proof.
  intros Hwf. unfold pending_reconnects.
  destruct e as [| | | | |payload|ms];
    try (match goal with
         | |- context [step st ?e] =>
             destruct (quiet_step_fields st e eq_refl)
               as (Hts & _ & _ & _ & _ & _ & _ & Hsock)
         end;
         rewrite Hts, Hsock; cbn [is_close]; lia).
  - cbn [is_close]. destruct (isRecording st) eqn:Hrec.
    + pose proof (stops_by_user st Hrec) as Hstop.
      destruct (stops_effect _ _ Hstop) as (Hts & _ & _ & _ & _ & _ & Hsock).
      destruct Hwf as [(_ & _ & Htimer) _].
      rewrite Hsock, Hts, filter_spared_all; [lia|].
      intros id Hid. apply (Htimer id Hid).
    + destruct (start_effect st Hrec)
        as (Hts & _ & _ & _ & _ & _ & _ & Hsock).
      rewrite Hsock, Hts. unfold push. rewrite filter_app, length_app.
      cbn. lia.
  - cbn [is_close].
    destruct (close_effect st) as (Hts & _ & _ & _ & _ & _ & Hsock).
    rewrite Hsock, Hts. unfold push. rewrite filter_app, length_app.
    cbn. lia.
  - cbn [step is_close]. unfold elapse. destruct (ms <? 0)%Z; [lia|].
    cbn [sockets_created timeouts with_clock].
    assert (H : timers_well_formed
                  (run_timers (length (timeouts st)) (clock st + ms) st)
                /\ sockets_created
                     (run_timers (length (timeouts st)) (clock st + ms) st)
                   + pending_reconnects
                       (run_timers (length (timeouts st)) (clock st + ms) st)
                   = sockets_created st + pending_reconnects st).
    { apply (run_timers_preserves
               (fun s => timers_well_formed s
                         /\ sockets_created s + pending_reconnects s
                            = sockets_created st + pending_reconnects st));
        [|split; [exact Hwf|reflexivity]].
      intros s t [Hs Hk] Ht. split; [apply fire_well_formed; assumption|].
      rewrite fire_balance; assumption. }
    destruct H as [_ H]. unfold pending_reconnects in H. lia.
Qed.

(** Every close of the socket is answered by exactly one reconnection:
    at any time, the sockets created since page load plus the
    reconnections still pending number one more than the closes seen.
    The script never opens two sockets for one close, and never drops a
    reconnection (errors, clicks, messages and recordings do not
    interfere). *)
Theorem one_reconnection_per_close (page : Dom) (t0 : Z) (evs : list event) :
  sockets_created (run (init page t0) evs)
  + pending_reconnects (run (init page t0) evs)
  = 1 + closes evs.
Proof.
  induction evs as [|e evs IH] using rev_ind.
  - reflexivity.
  - rewrite run_snoc, step_balance by apply run_well_formed.
    rewrite IH. unfold closes. rewrite filter_app, length_app. cbn [filter].
    destruct (is_close e); cbn [length]; lia.
Qed.

(** *** A session with no stale deadline runs its full duration *)

(** As [run_timers_preserves], knowing that what fires is due. *)
Lemma run_timers_preserves_due (horizon : Z) (P : State -> Prop) :
  (forall st t, P st -> In t (timeouts st) -> (due t <= horizon)%Z ->
                P (fire t st)) ->
  forall fuel st, P st -> P (run_timers fuel horizon st).
Proof.
  intros Hfire. induction fuel as [|fuel IH]; intros st HP; [exact HP|].
  rewrite run_timers_fire.
  destruct (earliest (due_by horizon (timeouts st))) as [t|] eqn:E;
    [|exact HP].
  apply earliest_In in E. apply filter_In in E. destruct E as [Hin Hdue].
  apply IH, Hfire; [exact HP|exact Hin|apply Z.leb_le, Hdue].
Qed.

Lemma fire_runs_until_deadline (c0 horizon : Z) (t : Timeout) (st : State) :
  runs_until_deadline c0 horizon st ->
  In t (timeouts st) -> (due t <= horizon)%Z ->
  runs_until_deadline c0 horizon (fire t st).
Proof.
  intros (Hstart & Hdeadlines & Hrun) Hin Hdue.
  destruct (fire_effect t st) as (_ & _ & Hs & Hcase).
  unfold runs_until_deadline. rewrite Hs. split; [exact Hstart|].
  destruct Hcase as [(Hact & Hrec & _ & Hts)|(_ & Hrec' & Hts)].
  - split.
    + rewrite Hts. intros x Hx. apply filter_In in Hx. destruct Hx as [Hx _].
      apply In_without in Hx. apply Hdeadlines, Hx.
    + right. rewrite <- (Hdeadlines t Hin Hact). exact Hdue.
  - split.
    + rewrite Hts. intros x Hx. apply In_without in Hx. apply Hdeadlines, Hx.
    + rewrite Hrec'. exact Hrun.
Qed.

Lemma step_runs_until_deadline (c0 : Z) (st : State) (e : event) :
  is_start_click e = false ->
  runs_until_deadline c0 (clock st) st ->
  runs_until_deadline c0 (clock (step st e)) (step st e).
Proof.
  intros He H. pose proof H as (Hstart & Hdeadlines & Hrun).
  destruct e as [| | | | |payload|ms]; try discriminate He;
    try (match goal with
         | |- context [step st ?e] =>
             destruct (quiet_step_fields st e eq_refl)
               as (Hts & _ & _ & Hrec & Hs & Hclock & _)
         end;
         unfold runs_until_deadline; rewrite Hts, Hrec, Hs, Hclock; exact H).
  - destruct (close_effect st) as (Hts & _ & _ & Hrec & Hs & Hclock & _).
    unfold runs_until_deadline. rewrite Hts, Hrec, Hs, Hclock.
    split; [exact Hstart|]. split; [|exact Hrun].
    intros x Hx Hact. apply in_app_or in Hx.
    destruct Hx as [Hx|[<-|[]]]; [apply Hdeadlines; assumption|].
    discriminate Hact.
  - cbn [step]. unfold elapse. destruct (Z.ltb_spec ms 0) as [Hneg|Hpos];
      [exact H|].
    cbn [clock with_clock].
    assert (Hin : runs_until_deadline c0 (clock st + ms)
                    (run_timers (length (timeouts st)) (clock st + ms) st)).
    { apply run_timers_preserves_due.
      - intros s t. apply fire_runs_until_deadline.
      - split; [exact Hstart|]. split; [exact Hdeadlines|].
        destruct Hrun as [Hrun|Hrun]; [left; exact Hrun|right; lia]. }
    exact Hin.
Qed.

Lemma run_runs_until_deadline (c0 : Z) (evs : list event) :
  forall st, no_start_click evs = true ->
  runs_until_deadline c0 (clock st) st ->
  runs_until_deadline c0 (clock (run st evs)) (run st evs).
Proof.
  induction evs as [|e evs IH]; intros st Hevs H; [exact H|].
  cbn in Hevs. apply andb_prop in Hevs. destruct Hevs as [He Hevs].
  apply negb_true_iff in He. cbn [run fold_left].
  apply (IH (step st e) Hevs). apply step_runs_until_deadline; assumption.
Qed.

(** A recording started in a state reached from page load in which no
    deadline of an earlier session is pending, and followed by no click
    on the record button, is running exactly as long as less than
    [RECORDING_DURATION] has passed since its start: it is stopped at its
    deadline, neither earlier nor later. *)
Theorem fresh_session_runs_full_duration
  (page : Dom) (t0 : Z) (before after : list event) :
  isRecording (run (init page t0) before) = false ->
  no_deadline_pending (run (init page t0) before) ->
  no_start_click after = true ->
  isRecording (run (init page t0) (before ++ Click_startRecordingBtn :: after))
  = true
  <-> (clock (run (init page t0) (before ++ Click_startRecordingBtn :: after))
       < clock (run (init page t0) before) + RECORDING_DURATION)%Z.
Proof.
  intros Hidle Hnone Hafter.
  set (st := run (init page t0) before) in *.
  assert (Hinv : runs_until_deadline (clock st)
                   (clock (run (step st Click_startRecordingBtn) after))
                   (run (step st Click_startRecordingBtn) after)).
  { apply run_runs_until_deadline; [exact Hafter|].
    destruct (start_effect st Hidle)
      as (Hts & _ & _ & Hrec & Hstart & Hclock & _).
    unfold runs_until_deadline. rewrite Hts, Hrec, Hstart, Hclock.
    split; [reflexivity|]. split; [|left; reflexivity].
    intros x Hx Hact. apply in_app_or in Hx.
    destruct Hx as [Hx|[<-|[]]]; [|reflexivity].
    exfalso. apply (Hnone x Hx Hact). }
  assert (Hrun : run (init page t0) (before ++ Click_startRecordingBtn :: after)
                 = run (step st Click_startRecordingBtn) after).
  { rewrite run_app. reflexivity. }
  destruct Hinv as (Hstart & _ & Halt).
  split.
  - intros Hrec.
    destruct (run_clock_invariants page t0
                (before ++ Click_startRecordingBtn :: after)) as [Hahead _].
    destruct (run_well_formed page t0
                (before ++ Click_startRecordingBtn :: after)) as [_ Hown].
    destruct (Hown Hrec) as (s & id & Hs & Hpending).
    specialize (Hahead _ Hpending). cbn [due] in Hahead.
    rewrite Hrun in *. rewrite Hstart in Hs. injection Hs as <-. lia.
  - intros Hclock. rewrite Hrun in *.
    destruct Halt as [Hrec|Hlate]; [exact Hrec|lia].
Qed.

Lemma fresh_session_runs_full_duration_witness :
  isRecording
    (run (init some_page 0)
       ([Ws_open] ++ Click_startRecordingBtn :: [Elapse 299999]))
  = true
  <-> (clock (run (init some_page 0)
                ([Ws_open] ++ Click_startRecordingBtn :: [Elapse 299999]))
       < clock (run (init some_page 0) [Ws_open]) + RECORDING_DURATION)%Z.
Proof.
  apply (fresh_session_runs_full_duration some_page 0
           [Ws_open] [Elapse 299999]).
  - reflexivity.
  - intros t [].
  - reflexivity.
Defined.

(** *** The clock of the recording *)



